(** * ELITA-1 / SmartBike dashboard: a shallow embedding of the frontend

    The development follows the JavaScript sources of the dashboard:

    - [Js]                 the fragment of JavaScript the sources rely on
                           (completions, [try]/[catch], numbers, [toFixed]);
    - [Api]                [utils/api.js]: [sendCommand] over axios;
    - [Telemetry]          the telemetry snapshot the components receive;
    - [SecurityControls]   the immobilize / resume panel;
    - [BikeMap]            the location panel;
    - [BikeStatusDisplay]  the status list (rear tire line);
    - [App]                [App.js]: the prototype dashboard state and toggles;
    - [Poller]             the polling state machine, which the sources do not
                           contain and which is therefore modelled from the
                           specification;
    - [JsOrder]            finite numbers and their order;
    - [Wiring]             [SecurityControls] with [utils/api.js] behind it;
    - [Mounted]            [SecurityControls] with the panel on screen;
    - [JsRead]             printed numerals read back as rationals;
    - [Widgets]            [App.js]: colour helpers, header, security widget,
                           maintenance cards and button presses.

    Definitions come first in each module; the statements about them are
    collected at the end of the file. *)

From Stdlib Require Import ZArith QArith Qabs Bool List String Ascii Lia.
From Stdlib Require Import Floats DecimalString DecimalN Sorted.
Import ListNotations.

Set Warnings "-inexact-float,-register-all".

Local Open Scope string_scope.
Local Open Scope Z_scope.

(* ===================================================================== *)
(** * The JavaScript fragment                                            *)
(* ===================================================================== *)

Module Js.

(** A JavaScript value, as far as the sources inspect one. [VNum] carries an
    IEEE 754 binary64 number; an object is its list of own properties. *)
Inductive value : Type :=
| VUndefined
| VNull
| VBool (b : bool)
| VNum (x : float)
| VStr (s : string)
| VArr (items : list value)
| VObj (props : list (string * value)).

(** [o.k]: the first own property named [k]; [None] stands for a property
    that is absent (reading it yields [undefined]). *)
Fixpoint lookup (k : string) (props : list (string * value)) : option value :=
  match props with
  | [] => None
  | (k', v) :: rest => if String.eqb k k' then Some v else lookup k rest
  end.

Definition field (k : string) (v : value) : option value :=
  match v with
  | VObj props => lookup k props
  | _ => None
  end.

(** What a thrown value is, for the purposes of the sources: an axios error
    (with the HTTP status when a response arrived) or a [TypeError]. *)
Inductive exn : Type :=
| AxiosError (message : string) (response_status : option Z)
| TypeError (message : string).

(** The completion of an evaluation (or the settlement of an awaited
    promise): a normal value, or a thrown exception (a rejection). *)
Inductive completion (A : Type) : Type :=
| Normal (a : A)
| Throw (e : exn).
Arguments Normal {A} a.
Arguments Throw {A} e.

Definition ret {A} (a : A) : completion A := Normal a.

Definition bind {A B} (c : completion A) (k : A -> completion B) : completion B :=
  match c with
  | Normal a => k a
  | Throw e => Throw e
  end.

(** [try { body } catch (e) { handler }] *)
Definition try_catch {A} (body : completion A) (handler : exn -> completion A)
  : completion A :=
  match body with
  | Normal a => Normal a
  | Throw e => handler e
  end.

Definition returns {A} (c : completion A) : bool :=
  match c with Normal _ => true | Throw _ => false end.

(** ** Numbers *)

(** [ToBoolean] on a number: [+0], [-0] and [NaN] are falsy. *)
Definition truthy_number (x : float) : bool :=
  negb (PrimFloat.eqb x 0%float || PrimFloat.is_nan x).

(** [v != null] *)
Definition not_nullish {A} (v : option A) : bool :=
  match v with Some _ => true | None => false end.

(** The magnitude [m * 2^e] of a finite binary64 number, as a rational. *)
Definition magnitude (m : positive) (e : Z) : Q :=
  match e with
  | Zneg p => Zpos m # (2 ^ p)
  | _ => inject_Z (Zpos m * 2 ^ e)
  end.

(** The exact (real) value of a finite number; [0] for the others. *)
Definition real (x : float) : Q :=
  match Prim2SF x with
  | S754_finite neg m e => if neg then (- magnitude m e)%Q else magnitude m e
  | _ => 0%Q
  end.

(** [m * 2^e >= 10^21], decided exactly. *)
Definition ge_1e21 (m : positive) (e : Z) : bool :=
  match e with
  | Zneg p => 10 ^ 21 * Zpos (2 ^ p) <=? Zpos m
  | _ => 10 ^ 21 <=? Zpos m * 2 ^ e
  end.

(** The integer [n] for which [n / 10^f - m * 2^e] is as close to zero as
    possible, the larger one when there are two (step 9.a of
    [Number.prototype.toFixed]). *)
Definition nearest_scaled (f : nat) (m : positive) (e : Z) : Z :=
  let scaled := Zpos m * 10 ^ Z.of_nat f in
  match e with
  | Zneg p => (2 * scaled + Zpos (2 ^ p)) / (2 * Zpos (2 ^ p))
  | _ => scaled * 2 ^ e
  end.

Definition digit (d : Z) : ascii := ascii_of_nat (48 + Z.to_nat d).

(** The decimal digits of a natural number, ["0"] for zero. *)
Definition digits (n : Z) : string :=
  NilZero.string_of_uint (N.to_uint (Z.to_N n)).

(** The last [f] decimal digits of [n], zero padded. *)
Fixpoint fraction_digits (f : nat) (n : Z) : string :=
  match f with
  | O => ""
  | S f' => String (digit ((n / 10 ^ Z.of_nat f') mod 10)) (fraction_digits f' n)
  end.

(** The string of a number: what [toFixed] and [toString] return. It is kept
    with the decimal it denotes, because the sources compare such a string
    with numbers again ([ToNumber] of the string).
    - [Fixed neg n f] is the text of [n / 10^f] with exactly [f] fraction
      digits, preceded by ["-"] when [neg];
    - [Shortest x] is [Number::toString(x)], used for [NaN], the infinities
      and magnitudes from [10^21] on. *)
Inductive numeral : Type :=
| Fixed (neg : bool) (n : Z) (f : nat)
| Shortest (x : float).

(** The rational a fixed numeral denotes. *)
Definition fixed_value (neg : bool) (n : Z) (f : nat) : Q :=
  (if neg then - n else n) # Z.to_pos (10 ^ Z.of_nat f).

(** [Number.prototype.toFixed(f)] for [0 <= f <= 100]. *)
Definition toFixed (f : nat) (x : float) : numeral :=
  match Prim2SF x with
  | S754_zero _ => Fixed false 0 f
  | S754_finite neg m e =>
      if ge_1e21 m e then Shortest x else Fixed neg (nearest_scaled f m e) f
  | S754_infinity _ | S754_nan => Shortest x
  end.

(** The numbers for which [toFixed] prints fixed notation: the finite ones of
    magnitude below [10^21]. *)
Definition fixed_range (x : float) : bool :=
  match Prim2SF x with
  | S754_zero _ => true
  | S754_finite _ m e => negb (ge_1e21 m e)
  | S754_infinity _ | S754_nan => false
  end.

Section Text.
(** [Number::toString] picks the shortest decimal that reads back as the
    number; the sources only reach it outside [fixed_range], and it is
    left to the runtime. *)
Variable numberToString : float -> string.

Definition text (s : numeral) : string :=
  match s with
  | Fixed neg n f =>
      (if neg then "-" else "")
        ++ digits (n / 10 ^ Z.of_nat f)
        ++ (match f with O => "" | _ => "." ++ fraction_digits f n end)
  | Shortest x =>
      match Prim2SF x with
      | S754_nan => "NaN"
      | S754_infinity false => "Infinity"
      | S754_infinity true => "-Infinity"
      | _ => numberToString x
      end
  end.
End Text.

(** [s < k] and [s > k] for a numeral string [s] and an integer constant [k]
    of the source: the string is converted with [ToNumber] first. For a
    fixed numeral the comparison is made on the decimal it denotes: rounding
    to binary64 is monotone and leaves the integer [k] fixed, and the
    decimals compared here have one fraction digit, so none lies strictly
    between [k] and a neighbouring binary64 number. [Shortest x] reads
    back as [x]; a comparison with [NaN] is false. *)
Definition lt_number (s : numeral) (k : Z) : bool :=
  match s with
  | Fixed neg n f => (if neg then - n else n) <? k * 10 ^ Z.of_nat f
  | Shortest x => PrimFloat.ltb x (PrimFloat.of_uint63 (Uint63.of_Z k))
  end.

Definition gt_number (s : numeral) (k : Z) : bool :=
  match s with
  | Fixed neg n f => k * 10 ^ Z.of_nat f <? (if neg then - n else n)
  | Shortest x => PrimFloat.ltb (PrimFloat.of_uint63 (Uint63.of_Z k)) x
  end.

End Js.

Declare Scope js_scope.
Delimit Scope js_scope with js.
Notation "x <- c ;; k" := (Js.bind c (fun x => k))
  (at level 61, c at next level, right associativity) : js_scope.


Local Open Scope js_scope.

(* ===================================================================== *)
(** * utils/api.js                                                       *)
(* ===================================================================== *)

Module Api.
Import Js.

(** What the network did with one request: no response at all (connection
    refused, name resolution, timeout, abort), or a response with its HTTP
    status code and its decoded body (the parsed JSON value, or the raw text
    as a string when it does not parse). A request that never settles has no
    outcome and is not described here. *)
Inductive wire : Type :=
| NoResponse (cause : string)
| Responded (code : Z) (body : value).

(** The response object axios resolves with: [res.status], [res.data]. *)
Record response : Type := { status : Z; data : value }.

(** axios' default [validateStatus]. *)
Definition validateStatus (code : Z) : bool := (200 <=? code) && (code <? 300).

(** [await axios.post(url, body)]: resolves with the response when its status
    passes [validateStatus], and rejects otherwise. *)
Definition axios_post (w : wire) : completion response :=
  match w with
  | NoResponse cause => Throw (AxiosError cause None)
  | Responded code body =>
      if validateStatus code
      then Normal {| status := code; data := body |}
      else Throw (AxiosError "Request failed" (Some code))
  end.

(** The remote end, seen from the dashboard: the outcome of posting a body to
    a URL. *)
Definition network : Type := string -> value -> wire.

(** The object literal of the [catch] branch. *)
Definition failure_outcome : value :=
  VObj [("status", VStr "error"); ("message", VStr "Network or server error")].

(** [export async function sendCommand(action, baseUrl)] *)
Definition sendCommand (net : network) (action baseUrl : string) : completion value :=
  try_catch
    (res <- axios_post (net (baseUrl ++ "/command") (VObj [("action", VStr action)])) ;;
     ret (data res))
    (fun _ => ret failure_outcome).

(** The outcome the network gives the request [sendCommand] issues. *)
Definition outcome_of (net : network) (action baseUrl : string) : wire :=
  net (baseUrl ++ "/command") (VObj [("action", VStr action)]).

(** The request failed at the transport: nothing came back, or the response
    code is not a success code. *)
Definition transport_failed (w : wire) : bool :=
  match w with
  | NoResponse _ => true
  | Responded code _ => negb (validateStatus code)
  end.

(** A response body of the shape the command endpoint documents:
    [{ "status": "ok" | "error", "message"?: string }]. *)
Definition well_formed_outcome (body : value) : bool :=
  match field "status" body with
  | Some (VStr s) =>
      (String.eqb s "ok" || String.eqb s "error")
      && match field "message" body with
         | None | Some (VStr _) => true
         | Some _ => false
         end
  | _ => false
  end.

(** The failures the transport contract lists: network failure or timeout, a
    non-success response code, or a malformed payload. *)
Definition contract_failure (w : wire) : bool :=
  match w with
  | NoResponse _ => true
  | Responded code body => negb (validateStatus code) || negb (well_formed_outcome body)
  end.

(** The result carries an error status and a message string. *)
Definition is_error_outcome (v : value) : bool :=
  match field "status" v, field "message" v with
  | Some (VStr s), Some (VStr _) => String.eqb s "error"
  | _, _ => false
  end.

(** A controller that answers the command with a rejection of its own. *)
Definition rejecting : network :=
  fun _ _ => Responded 409
    (VObj [("status", VStr "error"); ("message", VStr "Engine is running")]).

(** A controller that cannot be reached. *)
Definition unreachable : network :=
  fun _ _ => NoResponse "connect ECONNREFUSED".

(** A proxy in front of the controller that answers with a page, not JSON. *)
Definition garbling : network :=
  fun _ _ => Responded 200 (VStr "<html>Bad Gateway</html>").

End Api.

(* ===================================================================== *)
(** * The telemetry snapshot                                             *)
(* ===================================================================== *)

Module Telemetry.

(** The object the components receive as [bikeData]. A numeric field is
    [None] when it is [null] or missing. *)
Record bikeData : Type := {
  engine_temp_c : option float;
  battery_voltage : option float;
  tire_pressure_kpa : option float;
  moving : bool;
  gps_lat : option float;
  gps_lon : option float;
  immobilization_status : bool;
  timestamp : Z
}.

(** [mockBikeData], with [Date.now()] (milliseconds) as [now]. *)
Definition mockBikeData (now : Z) : bikeData := {|
  engine_temp_c := Some 82.7%float;
  battery_voltage := Some 12.46%float;
  tire_pressure_kpa := Some 220%float;
  moving := false;
  gps_lat := Some 37.4219999%float;
  gps_lon := Some (-122.0840575)%float;
  immobilization_status := false;
  timestamp := now / 1000
|}.

(** A snapshot with another tire pressure reading. *)
Definition with_tire_pressure (v : option float) (bd : bikeData) : bikeData := {|
  engine_temp_c := engine_temp_c bd;
  battery_voltage := battery_voltage bd;
  tire_pressure_kpa := v;
  moving := moving bd;
  gps_lat := gps_lat bd;
  gps_lon := gps_lon bd;
  immobilization_status := immobilization_status bd;
  timestamp := timestamp bd
|}.

End Telemetry.

(* ===================================================================== *)
(** * SecurityControls                                                   *)
(* ===================================================================== *)

Module SecurityControls.
Import Js Telemetry.

(** The argument of [handleClick]: ['immobilize'] or ['resume']. *)
Inductive action : Type := immobilize | resume.

Definition action_name (a : action) : string :=
  match a with
  | immobilize => "immobilize"
  | resume => "resume"
  end.

(** The immobilization state an action asks for. *)
Definition target (a : action) : bool :=
  match a with
  | immobilize => true
  | resume => false
  end.

(** The component's own state: [const [busy, setBusy] = useState(false)]. *)
Record state : Type := { busy : bool }.

Definition initial : state := {| busy := false |}.

Record button : Type := {
  disabled : bool;
  className : string;
  onClick : action;
  label : string
}.

(** The rendered panel. *)
Record panel : Type := {
  heading : string;
  status_class : string;
  status_text : string;
  immobilize_button : button;
  resume_button : button;
  working : option string
}.

(** [const immobilized = !!bikeData.immobilization_status;] *)
Definition immobilized (bd : bikeData) : bool :=
  negb (negb (immobilization_status bd)).

(** The component function: [null] without [bikeData]. *)
Definition render (st : state) (bikeData : option bikeData) : option panel :=
  match bikeData with
  | None => None
  | Some bd =>
      let immobilized := immobilized bd in
      Some {|
        heading := "Security";
        status_class := "status-line " ++ (if immobilized then "immobilized" else "active");
        status_text := "Engine Status: " ++ (if immobilized then "IMMOBILIZED" else "ACTIVE");
        immobilize_button := {|
          disabled := busy st || immobilized;
          className := "btn danger";
          onClick := immobilize;
          label := "IMMOBILIZE ENGINE" |};
        resume_button := {|
          disabled := busy st || negb immobilized;
          className := "btn primary";
          onClick := resume;
          label := "ACTIVATE ENGINE" |};
        working := if busy st then Some "Processing..." else None
      |}
  end.

(** What the component asks of its surroundings: a call of the [sendCommand]
    prop. *)
Inductive effect : Type := SendCommand (a : action).

(** [handleClick] up to its [await]: [setBusy(true)], then the call. *)
Definition handleClick_call (a : action) (st : state) : state * list effect :=
  ({| busy := true |}, [SendCommand a]).

(** [handleClick] from the settlement [r] of the awaited call on: the value
    is dropped, the [finally] block runs [setBusy(false)], and a rejection
    goes on as the completion of [handleClick]. *)
Definition handleClick_settle (r : completion value) (st : state)
  : state * completion unit :=
  ({| busy := false |},
   match r with
   | Normal _ => Normal tt
   | Throw e => Throw e
   end).

(** A click on a rendered button: a disabled button dispatches no event. *)
Definition click (b : button) (st : state) : state * list effect :=
  if disabled b then (st, []) else handleClick_call (onClick b) st.

Definition button_for (a : action) (v : panel) : button :=
  match a with
  | immobilize => immobilize_button v
  | resume => resume_button v
  end.

(** What happens to the component: the user clicks one of the two buttons, or
    the command in flight settles. *)
Inductive event : Type :=
| Click (a : action)
| Settled (r : completion value).

Definition step (bikeData : option bikeData) (st : state) (ev : event)
  : state * list effect :=
  match ev with
  | Click a =>
      match render st bikeData with
      | Some v => click (button_for a v) st
      | None => (st, [])
      end
  | Settled r => (fst (handleClick_settle r st), [])
  end.

(** Every text the panel shows. *)
Definition texts (v : option panel) : list string :=
  match v with
  | None => []
  | Some p =>
      ([heading p; status_text p; label (immobilize_button p); label (resume_button p)]
         ++ match working p with Some w => [w] | None => [] end)%list
  end.

(** [m] occurs in [t]. *)
Definition occurs_in (m t : string) : bool :=
  match String.index 0 m t with
  | Some _ => true
  | None => false
  end.

(** The control state of the specification (section 3), which the component
    is compared with. *)
Record ControlState : Type := {
  pending : bool;
  optimisticImmobilized : option bool
}.

(** The control state the specification prescribes once a request is
    accepted (section 4.3): "set pending = true, set optimisticImmobilized to
    the target value". *)
Definition on_acceptance (a : action) (c : ControlState) : ControlState :=
  {| pending := true; optimisticImmobilized := Some (target a) |}.

(** The displayed immobilization value as the specification words it:
    [optimisticImmobilized] if present, else the snapshot's value. *)
Definition displayed_by_rule (c : ControlState) (snapshot_immobilized : bool) : bool :=
  match optimisticImmobilized c with
  | Some b => b
  | None => snapshot_immobilized
  end.

(** The immobilization value a rendered panel displays. *)
Definition displayed (v : panel) : bool :=
  String.eqb (status_text v) "Engine Status: IMMOBILIZED".

End SecurityControls.

(* ===================================================================== *)
(** * BikeMap                                                            *)
(* ===================================================================== *)

Module BikeMap.
Import Js Telemetry.

(** A pair of coordinates as the component builds it: [[lat, lon]]. *)
Definition latlng : Type := (option float * option float)%type.

Record marker : Type := {
  position : latlng;
  popup : list string
}.

(** What the panel holds below its heading: the map with its marker, or the
    message. *)
Inductive content : Type :=
| MapContainer (center : latlng) (zoom : Z) (m : marker)
| NoLocation (message : string).

Record panel : Type := {
  heading : string;
  body : content
}.

(** [v.toFixed(f)] on a value that may be [null]. *)
Definition call_toFixed (f : nat) (v : option float) : completion numeral :=
  match v with
  | Some x => Normal (toFixed f x)
  | None => Throw (TypeError "Cannot read properties of null (reading 'toFixed')")
  end.

Section Component.
Variable numberToString : float -> string.

(** The component function: [null] without [bikeData]. *)
Definition BikeMap (bikeData : option bikeData) : completion (option panel) :=
  match bikeData with
  | None => ret None
  | Some bd =>
      let lat := gps_lat bd in
      let lon := gps_lon bd in
      let hasLocation := not_nullish lat && not_nullish lon in
      let position := if hasLocation then (lat, lon) else (Some 0%float, Some 0%float) in
      if hasLocation then
        la <- call_toFixed 5 lat ;;
        lo <- call_toFixed 5 lon ;;
        ret (Some {|
          heading := "Location";
          body := MapContainer position 15 {|
            position := position;
            popup := ["Bike Location";
                      "Lat: " ++ text numberToString la ++ ", Lon: " ++ text numberToString lo]
          |}
        |})
      else
        ret (Some {| heading := "Location"; body := NoLocation "No GPS fix yet" |})
  end.

End Component.

(** The marker a rendered panel shows, if any. *)
Definition marker_of (p : panel) : option marker :=
  match body p with
  | MapContainer _ _ m => Some m
  | NoLocation _ => None
  end.

End BikeMap.

(* ===================================================================== *)
(** * BikeStatusDisplay                                                  *)
(* ===================================================================== *)

Module BikeStatusDisplay.
Import Js Telemetry.

(** One [<li>] of the status list. *)
Record item : Type := {
  className : string;
  content : string
}.

(** The factor from kPa to PSI, as the source writes it. *)
Definition psi_per_kpa : float := 0.1450377%float.

(** [tirePressureKpa ? (tirePressureKpa * 0.1450377).toFixed(1) : null] *)
Definition tirePressurePsi (bd : bikeData) : option numeral :=
  match tire_pressure_kpa bd with
  | Some tirePressureKpa =>
      if truthy_number tirePressureKpa
      then Some (toFixed 1 (tirePressureKpa * psi_per_kpa)%float)
      else None
  | None => None
  end.

(** [engineTemp != null && engineTemp > 100 ? 'warn' : 'ok'] *)
Definition tempClass (bd : bikeData) : string :=
  match engine_temp_c bd with
  | Some engineTemp => if PrimFloat.ltb 100%float engineTemp then "warn" else "ok"
  | None => "ok"
  end.

(** [batteryVoltage != null && batteryVoltage < 11.5 ? 'warn' : 'ok'] *)
Definition battClass (bd : bikeData) : string :=
  match battery_voltage bd with
  | Some batteryVoltage => if PrimFloat.ltb batteryVoltage 11.5%float then "warn" else "ok"
  | None => "ok"
  end.

(** [tirePressurePsi != null && (tirePressurePsi < 28 || tirePressurePsi > 40)
     ? 'warn' : 'ok'] *)
Definition tireClass (bd : bikeData) : string :=
  match tirePressurePsi bd with
  | Some psi => if lt_number psi 28 || gt_number psi 40 then "warn" else "ok"
  | None => "ok"
  end.

Section Component.
Variable numberToString : float -> string.

Definition engine_item (bd : bikeData) : item := {|
  className := tempClass bd;
  content := "Engine Temp: " ++
    match engine_temp_c bd with
    | Some engineTemp => text numberToString (toFixed 1 engineTemp) ++ "°C"
    | None => "—"
    end
|}.

Definition battery_item (bd : bikeData) : item := {|
  className := battClass bd;
  content := "Battery: " ++
    match battery_voltage bd with
    | Some batteryVoltage => text numberToString (toFixed 2 batteryVoltage) ++ "V"
    | None => "—"
    end
|}.

Definition tire_item (bd : bikeData) : item := {|
  className := tireClass bd;
  content := "Rear Tire: " ++
    match tirePressurePsi bd with
    | Some psi => text numberToString psi ++ " PSI"
    | None => "—"
    end
|}.

Definition moving_item (bd : bikeData) : item := {|
  className := "";
  content := "Moving: " ++ (if moving bd then "Yes" else "No")
|}.

(** The component function, up to the "Last Update" line (which prints the
    timestamp in the browser's locale): [null] without [bikeData]. *)
Definition BikeStatusDisplay (bikeData : option bikeData) : option (list item) :=
  match bikeData with
  | None => None
  | Some bd => Some [engine_item bd; battery_item bd; tire_item bd; moving_item bd]
  end.

End Component.

(** The rear tire line when there is no PSI value to show. *)
Definition placeholder_item : item :=
  {| className := "ok"; content := "Rear Tire: —" |}.

End BikeStatusDisplay.

(* ===================================================================== *)
(** * App.js: the prototype dashboard                                    *)
(* ===================================================================== *)

Module App.

Module Reading.
Record t : Type := { value : float; unit : string; status : string }.
End Reading.

Module TirePressure.
Record t : Type := { front : float; rear : float; unit : string; status : string }.
End TirePressure.

Module LiveStatus.
Record t : Type := {
  engineTemp : Reading.t;
  oilPressure : Reading.t;
  tirePressure : TirePressure.t;
  batteryVoltage : Reading.t;
  engineHumidity : Reading.t;
  exhaustIndex : Reading.t
}.
End LiveStatus.

Module Location.
Record t : Type := { lat : float; lon : float; lastUpdated : string }.
End Location.

Module Security.
Record t : Type := { status : string; engine : string }.
End Security.

Module Factor.
Record t : Type := { factor : string; impact : string; description : string }.
End Factor.

Module ServiceAdvisor.
Record t : Type := {
  healthScore : float;
  status : string;
  predictionText : string;
  lastServiceDate : string;
  lastServiceDistance : float;
  contributingFactors : list Factor.t
}.
End ServiceAdvisor.

Module Trend.
Record t : Type := { name : string; health : float }.
End Trend.

Module Maintenance.
Record t : Type := {
  part : string;
  icon : string;
  health : float;
  prediction : string;
  trendData : list Trend.t
}.
End Maintenance.

(** The dashboard state: the value of [data] in [App]. *)
Record data : Type := {
  liveStatus : LiveStatus.t;
  location : Location.t;
  security : Security.t;
  serviceAdvisor : ServiceAdvisor.t;
  predictiveMaintenance : list Maintenance.t
}.

Definition mockBikeDataObject : data := {|
  liveStatus := {|
    LiveStatus.engineTemp := {| Reading.value := 85; Reading.unit := "°C"; Reading.status := "Normal" |};
    LiveStatus.oilPressure := {| Reading.value := 55; Reading.unit := "PSI"; Reading.status := "Normal" |};
    LiveStatus.tirePressure := {|
      TirePressure.front := 33; TirePressure.rear := 34;
      TirePressure.unit := "PSI"; TirePressure.status := "Good" |};
    LiveStatus.batteryVoltage := {| Reading.value := 12.4; Reading.unit := "V"; Reading.status := "Good" |};
    LiveStatus.engineHumidity := {| Reading.value := 45; Reading.unit := "%"; Reading.status := "Dry" |};
    LiveStatus.exhaustIndex := {| Reading.value := 88; Reading.unit := "AQI"; Reading.status := "Good" |}
  |};
  location := {| Location.lat := 12.9716; Location.lon := 77.5946; Location.lastUpdated := "2 mins ago" |};
  security := {| Security.status := "Locked"; Security.engine := "Off" |};
  serviceAdvisor := {|
    ServiceAdvisor.healthScore := 78;
    ServiceAdvisor.status := "Good";
    ServiceAdvisor.predictionText := "Next service due in ~1,250 km or 2 months";
    ServiceAdvisor.lastServiceDate := "2025-05-10";
    ServiceAdvisor.lastServiceDistance := 15300;
    ServiceAdvisor.contributingFactors := [
      {| Factor.factor := "Riding Style"; Factor.impact := "Moderate";
         Factor.description := "Frequent hard braking events detected, accelerating wear." |};
      {| Factor.factor := "Usage Type"; Factor.impact := "High";
         Factor.description := "Primarily short-distance city riding under heavy load." |};
      {| Factor.factor := "Distance Covered"; Factor.impact := "Moderate";
         Factor.description := "2,750 of 4,000 km covered." |};
      {| Factor.factor := "Time Elapsed"; Factor.impact := "Low";
         Factor.description := "4 of 6 months passed since last service." |}
    ]
  |};
  predictiveMaintenance := [
    {| Maintenance.part := "Engine Oil"; Maintenance.icon := "Droplets"; Maintenance.health := 45;
       Maintenance.prediction := "Oil change recommended soon";
       Maintenance.trendData := [
         {| Trend.name := "Jul"; Trend.health := 90 |};
         {| Trend.name := "Aug"; Trend.health := 80 |};
         {| Trend.name := "Sep"; Trend.health := 65 |};
         {| Trend.name := "Oct"; Trend.health := 55 |};
         {| Trend.name := "Nov"; Trend.health := 45 |} ] |};
    {| Maintenance.part := "Battery Health"; Maintenance.icon := "Battery"; Maintenance.health := 92;
       Maintenance.prediction := "Stable performance, ~1.5 years life remaining";
       Maintenance.trendData := [
         {| Trend.name := "Jul"; Trend.health := 98 |};
         {| Trend.name := "Aug"; Trend.health := 97 |};
         {| Trend.name := "Sep"; Trend.health := 95 |};
         {| Trend.name := "Oct"; Trend.health := 93 |};
         {| Trend.name := "Nov"; Trend.health := 92 |} ] |}
  ]
|}.

(** [handleLockToggle]: the state after
    [setData(p => ({ ...p, security: { ...p.security, status: ... } }))]. *)
Definition handleLockToggle (p : data) : data := {|
  liveStatus := liveStatus p;
  location := location p;
  security := {|
    Security.status :=
      if String.eqb (Security.status (security p)) "Locked" then "Unlocked" else "Locked";
    Security.engine := Security.engine (security p)
  |};
  serviceAdvisor := serviceAdvisor p;
  predictiveMaintenance := predictiveMaintenance p
|}.

(** [handleEngineToggle]: the state after
    [setData(p => ({ ...p, security: { ...p.security, engine: ... } }))]. *)
Definition handleEngineToggle (p : data) : data := {|
  liveStatus := liveStatus p;
  location := location p;
  security := {|
    Security.status := Security.status (security p);
    Security.engine :=
      if String.eqb (Security.engine (security p)) "On" then "Off" else "On"
  |};
  serviceAdvisor := serviceAdvisor p;
  predictiveMaintenance := predictiveMaintenance p
|}.

(** The states the dashboard can be in: [useState(() => mockBikeDataObject)],
    and [setData] is called by the two toggles only. *)
Inductive dashboard_state : data -> Prop :=
| ds_initial : dashboard_state mockBikeDataObject
| ds_lock p : dashboard_state p -> dashboard_state (handleLockToggle p)
| ds_engine p : dashboard_state p -> dashboard_state (handleEngineToggle p).

(** The exchange of two string constants. *)
Definition swapped (a b x y : string) : Prop :=
  (x = a /\ y = b) \/ (x = b /\ y = a).

End App.

(* ===================================================================== *)
(** * The Poller                                                         *)
(* ===================================================================== *)

Module Poller.

(** Modelled from the spec: the TelemetrySnapshot of section 3 (the sources
    hold the components that consume a snapshot, not the code that fetches
    and accepts one). *)
Record TelemetrySnapshot : Type := {
  engineTempC : float;
  batteryVoltage : float;
  tirePressureKpa : float;
  moving : bool;
  gpsLat : option float;
  gpsLon : option float;
  immobilized : bool;
  timestampUnixSeconds : Z
}.

(** Modelled from the spec: the TransportError of section 4.1, "carrying a
    human-readable cause". *)
Record TransportError : Type := { cause : string }.

(** Modelled from the spec: the result of [fetchSnapshot()],
    [Result<TelemetrySnapshot, TransportError>]. *)
Inductive fetched : Type :=
| Ok (s : TelemetrySnapshot)
| Err (e : TransportError).

(** Modelled from the spec: the two states of the Poller's state machine
    (section 4.2); there is no third, failed, state. *)
Inductive mode : Type := Idle | Polling.

(** Modelled from the spec: the Poller's state (sections 4.2 and 5): the state
    of the machine, the last accepted snapshot, and whether a fetch is
    outstanding ("only one fetchSnapshot call may be outstanding at a
    time"). The sources contain no polling loop. *)
Record state : Type := {
  phase : mode;
  lastAccepted : option TelemetrySnapshot;
  outstanding : bool
}.

Definition initial : state :=
  {| phase := Idle; lastAccepted := None; outstanding := false |}.

(** Modelled from the spec: what can happen to the Poller: start, explicit
    stop, a tick of its timer, and the delivery of a fetch result. *)
Inductive input : Type :=
| Start
| Stop
| Tick
| Delivered (r : fetched).

(** Modelled from the spec: what the Poller does: it invokes the Transport
    Client, publishes a snapshot, or publishes the distinct "fetch failed"
    event. *)
Inductive output : Type :=
| Fetch
| Publish (s : TelemetrySnapshot)
| FetchFailed (why : string).

(** Modelled from the spec: the staleness policy of section 4.2: "accepted
    and published only if its timestampUnixSeconds is greater than or equal
    to the last accepted snapshot's". *)
Definition accepts (last : option TelemetrySnapshot) (s : TelemetrySnapshot) : bool :=
  match last with
  | Some l => timestampUnixSeconds l <=? timestampUnixSeconds s
  | None => true
  end.

(** Modelled from the spec: one transition of the Poller (sections 4.2 and
    5), which the sources do not contain.
    - start: Idle -> Polling;
    - stop: Polling -> Idle; it cancels the timer only;
    - tick: Polling -> Polling; it issues a fetch unless one is outstanding,
      in which case the tick is skipped;
    - a delivered result frees the outstanding slot; it is discarded when the
      Poller has been stopped; a snapshot is accepted and published under the
      staleness policy and silently dropped otherwise; a TransportError is
      published as the "fetch failed" event. *)
Definition step (st : state) (i : input) : state * list output :=
  match i with
  | Start =>
      ({| phase := Polling; lastAccepted := lastAccepted st; outstanding := outstanding st |}, [])
  | Stop =>
      ({| phase := Idle; lastAccepted := lastAccepted st; outstanding := outstanding st |}, [])
  | Tick =>
      match phase st with
      | Idle => (st, [])
      | Polling =>
          if outstanding st then (st, [])
          else ({| phase := Polling; lastAccepted := lastAccepted st; outstanding := true |},
                [Fetch])
      end
  | Delivered r =>
      let freed := {| phase := phase st; lastAccepted := lastAccepted st; outstanding := false |} in
      match phase st with
      | Idle => (freed, [])
      | Polling =>
          match r with
          | Ok s =>
              if accepts (lastAccepted st) s
              then ({| phase := Polling; lastAccepted := Some s; outstanding := false |},
                    [Publish s])
              else (freed, [])
          | Err e => (freed, [FetchFailed (cause e)])
          end
      end
  end.

(** Modelled from the spec: the Poller run over a sequence of inputs, with
    everything it did, in order. *)
Fixpoint run (st : state) (ins : list input) : state * list output :=
  match ins with
  | [] => (st, [])
  | i :: rest =>
      let (st1, out1) := step st i in
      let (st2, out2) := run st1 rest in
      (st2, (out1 ++ out2)%list)
  end.

(** The timestamps of the snapshots among the outputs, in order. *)
Fixpoint published (outs : list output) : list Z :=
  match outs with
  | [] => []
  | Publish s :: rest => timestampUnixSeconds s :: published rest
  | _ :: rest => published rest
  end.

(** The inputs hold no explicit stop. *)
Fixpoint no_stop (ins : list input) : bool :=
  match ins with
  | [] => true
  | Stop :: _ => false
  | _ :: rest => no_stop rest
  end.

Definition is_stop (i : input) : bool :=
  match i with Stop => true | _ => false end.

(** [t] is no older than the last accepted snapshot, if there is one. *)
Definition not_before (last : option TelemetrySnapshot) (t : Z) : Prop :=
  match last with
  | Some l => timestampUnixSeconds l <= t
  | None => True
  end.

(** A transport error and a snapshot, for the scenarios. *)
Definition connection_lost : TransportError := {| cause := "connection lost" |}.

Definition snapshot_at (t : Z) (flag : bool) : TelemetrySnapshot := {|
  engineTempC := 82.7;
  batteryVoltage := 12.46;
  tirePressureKpa := 220;
  moving := false;
  gpsLat := None;
  gpsLon := None;
  immobilized := flag;
  timestampUnixSeconds := t
|}.

(** The scenario of two failed fetches and a good one. *)
Definition two_failures_then_success : list input :=
  [Tick; Delivered (Err connection_lost);
   Tick; Delivered (Err connection_lost);
   Tick; Delivered (Ok (snapshot_at 100 false))].

End Poller.

(* ===================================================================== *)
(** * The order of finite numbers                                        *)
(* ===================================================================== *)

Module JsOrder.
Import Js.

(** The number is finite: a zero, a subnormal or a normal number. *)
Definition finite (x : float) : bool :=
  match Prim2SF x with
  | S754_zero _ | S754_finite _ _ _ => true
  | S754_infinity _ | S754_nan => false
  end.

(** A finite binary64 number in units of [2^-1074], its smallest step. *)
Definition scaled (f : spec_float) : Z :=
  match f with
  | S754_finite neg m e =>
      if neg then - (Zpos m * 2 ^ (e + 1074)) else Zpos m * 2 ^ (e + 1074)
  | _ => 0
  end.

End JsOrder.

(* ===================================================================== *)
(** * SecurityControls with api.js behind it                             *)
(* ===================================================================== *)

Module Wiring.
Import Js SecurityControls.

(** The [sendCommand] prop when the parent binds [sendCommand] of
    [utils/api.js] to a base URL: [action => sendCommand(action, baseUrl)]. *)
Definition bound_sendCommand (net : Api.network) (baseUrl : string) (a : action)
  : completion value :=
  Api.sendCommand net (action_name a) baseUrl.

End Wiring.

(* ===================================================================== *)
(** * SecurityControls on screen                                         *)
(* ===================================================================== *)

Module Mounted.
Import Js Telemetry SecurityControls.

(** The mounted component: the state React holds for it, and the panel on
    screen, which is the one rendered and committed last. A call of
    [setBusy] changes the state at once; the panel, and with it the
    [disabled] attributes of the buttons, changes with the next commit. *)
Record mounted : Type := {
  current : state;
  shown : option panel
}.

(** The component as first rendered with its props. *)
Definition mount (bikeData : option bikeData) : mounted :=
  {| current := initial; shown := render initial bikeData |}.

(** What happens to the mounted component: React renders it with its current
    state and the given props and commits the panel; the user clicks a button
    of the panel on screen; the command in flight settles. *)
Inductive happening : Type :=
| Commit (bikeData : option bikeData)
| Press (a : action)
| Settle (r : completion value).

Definition happen (m : mounted) (h : happening) : mounted * list effect :=
  match h with
  | Commit bikeData =>
      ({| current := current m; shown := render (current m) bikeData |}, [])
  | Press a =>
      match shown m with
      | Some v =>
          let (st, out) := click (button_for a v) (current m) in
          ({| current := st; shown := shown m |}, out)
      | None => (m, [])
      end
  | Settle r =>
      ({| current := fst (handleClick_settle r (current m)); shown := shown m |}, [])
  end.

(** A sequence of happenings, with the calls of [sendCommand] it causes. *)
Fixpoint happenings (m : mounted) (hs : list happening) : mounted * list effect :=
  match hs with
  | [] => (m, [])
  | h :: rest =>
      let (m1, out1) := happen m h in
      let (m2, out2) := happenings m1 rest in
      (m2, (out1 ++ out2)%list)
  end.

(** The number of settlements in a sequence of happenings. *)
Fixpoint settlements (hs : list happening) : nat :=
  match hs with
  | [] => O
  | Settle _ :: rest => S (settlements rest)
  | _ :: rest => settlements rest
  end.

(** A commit lies between any two clicks of the sequence; [pressed] tells
    whether a click has occurred since the last commit. *)
Fixpoint commit_between_presses (pressed : bool) (hs : list happening) : bool :=
  match hs with
  | [] => true
  | Commit _ :: rest => commit_between_presses false rest
  | Press _ :: rest => negb pressed && commit_between_presses true rest
  | Settle _ :: rest => commit_between_presses pressed rest
  end.

(** The panel on screen is up to date with the state as far as the buttons
    go: an enabled button means that the component is not busy. *)
Definition enabled_means_idle (m : mounted) : Prop :=
  forall v a, shown m = Some v -> disabled (button_for a v) = false ->
              busy (current m) = false.

End Mounted.

(* ===================================================================== *)
(** * Reading a printed numeral back                                     *)
(* ===================================================================== *)

Module JsRead.

(** The value of a decimal digit character. *)
Definition digit_value (c : ascii) : option Z :=
  let n := Z.of_nat (nat_of_ascii c) in
  if (48 <=? n) && (n <=? 57) then Some (n - 48) else None.

(** A string of decimal digits read from the left, continuing from [acc]. *)
Fixpoint read_digits (s : string) (acc : Z) : option Z :=
  match s with
  | EmptyString => Some acc
  | String c rest =>
      match digit_value c with
      | Some d => read_digits rest (10 * acc + d)
      | None => None
      end
  end.

(** The first [n] characters of a string, and the rest. *)
Fixpoint split_at (n : nat) (s : string) : string * string :=
  match n, s with
  | S n', String c rest => let (a, b) := split_at n' rest in (String c a, b)
  | _, _ => (EmptyString, s)
  end.

(** An unsigned decimal numeral with exactly [f] fraction digits, read back
    as its numerator over [10^f]: at least one digit, ["."] and [f] digits.
    Anything else is not such a numeral. *)
Definition read_unsigned (f : nat) (body : string) : option Z :=
  let (whole, tail) := split_at (String.length body - S f) body in
  match whole, tail with
  | String _ _, String c frac =>
      if Ascii.eqb c "." && Nat.eqb (String.length frac) f then
        match read_digits whole 0, read_digits frac 0 with
        | Some w, Some r => Some (w * 10 ^ Z.of_nat f + r)
        | _, _ => None
        end
      else None
  | _, _ => None
  end.

(** A decimal numeral with exactly [f] fraction digits, with or without a
    leading ["-"], read back as the rational it denotes. *)
Definition read_fixed (f : nat) (s : string) : option Q :=
  match s with
  | String c rest =>
      if Ascii.eqb c "-"
      then option_map (fun k => (- k) # Z.to_pos (10 ^ Z.of_nat f)) (read_unsigned f rest)
      else option_map (fun k => k # Z.to_pos (10 ^ Z.of_nat f)) (read_unsigned f s)
  | EmptyString => None
  end.

End JsRead.

(* ===================================================================== *)
(** * App.js: helpers and widgets                                        *)
(* ===================================================================== *)

Module Widgets.
Import App.

(** The string-keyed members every object literal inherits from
    [Object.prototype]. *)
Definition object_prototype_members : list string :=
  ["constructor"; "hasOwnProperty"; "isPrototypeOf"; "propertyIsEnumerable";
   "toLocaleString"; "toString"; "valueOf"; "__proto__";
   "__defineGetter__"; "__defineSetter__"; "__lookupGetter__"; "__lookupSetter__"].

(** The first entry of an object literal under a key. *)
Fixpoint own {A : Type} (k : string) (table : list (string * A)) : option A :=
  match table with
  | [] => None
  | (k', a) :: rest => if String.eqb k k' then Some a else own k rest
  end.

(** The outcome of [table[k] || fallback] for a table of truthy values: the
    table's own value, a member inherited from [Object.prototype] (a function
    or an object, which is truthy), or the fallback. *)
Inductive chosen (A : Type) : Type :=
| Value (a : A)
| Member (name : string).
Arguments Value {A} a.
Arguments Member {A} name.

Definition get_or {A : Type} (table : list (string * A)) (k : string) (fallback : A)
  : chosen A :=
  match own k table with
  | Some a => Value a
  | None =>
      if existsb (String.eqb k) object_prototype_members
      then Member k
      else Value fallback
  end.

(** [const barColor = v => (v >= 75 ? ... : v >= 50 ? ... : ...)] *)
Definition barColor (v : float) : string :=
  if PrimFloat.leb 75 v then "bg-green-500"
  else if PrimFloat.leb 50 v then "bg-yellow-400"
  else "bg-red-500".

(** [const ringColor = v => (v >= 75 ? ... : v >= 50 ? ... : ...)] *)
Definition ringColor (v : float) : string :=
  if PrimFloat.leb 75 v then "#22c55e"
  else if PrimFloat.leb 50 v then "#f59e0b"
  else "#ef4444".

(** The object literal of [statusColor]. *)
Definition statusColors : list (string * string) :=
  [("Normal", "text-emerald-400");
   ("Good", "text-green-400");
   ("Dry", "text-sky-300");
   ("Warning", "text-amber-400");
   ("Critical", "text-red-400");
   ("Poor", "text-orange-400")].

(** [const statusColor = s => ({ ... }[s] || 'text-zinc-400')] *)
Definition statusColor (s : string) : chosen string :=
  get_or statusColors s "text-zinc-400".

(** [iconMap], each component by its name. *)
Definition iconMap : list (string * string) :=
  [("Droplets", "Droplets"); ("Thermometer", "Thermometer"); ("Gauge", "Gauge");
   ("Battery", "Battery"); ("MapPin", "MapPin"); ("Lock", "Lock");
   ("Unlock", "Unlock"); ("Bike", "Bike"); ("Power", "Power");
   ("PowerOff", "PowerOff"); ("CloudFog", "CloudFog"); ("Leaf", "Leaf")].

(** [StatusIcon]: the component rendered, [iconMap[name] || Bike]. *)
Definition StatusIcon (name : string) : chosen string :=
  get_or iconMap name "Bike".

(** [Header], as far as it depends on the state: the icon and the status
    text with its class. *)
Record header : Type := {
  header_icon : string;
  header_status : string;
  header_status_class : string
}.

Definition Header (securityStatus : string) : header := {|
  header_icon := if String.eqb securityStatus "Locked" then "Lock" else "Unlock";
  header_status := securityStatus;
  header_status_class :=
    if String.eqb securityStatus "Locked" then "text-green-400" else "text-amber-300"
|}.

(** [SecurityWidget]: the card's icon, the two state lines and the two
    buttons; a button is its icon and its label. *)
Record security_widget : Type := {
  card_icon : string;
  lock_state : string;
  lock_state_class : string;
  engine_state : string;
  engine_state_class : string;
  lock_button_icon : string;
  lock_button : string;
  engine_button_icon : string;
  engine_button : string
}.

Definition SecurityWidget (security : Security.t) : security_widget :=
  let isLocked := String.eqb (Security.status security) "Locked" in
  let engineOn := String.eqb (Security.engine security) "On" in
  {| card_icon := if isLocked then "Lock" else "Unlock";
     lock_state := Security.status security;
     lock_state_class := if isLocked then "text-green-400" else "text-amber-300";
     engine_state := if engineOn then "ON" else "OFF";
     engine_state_class := if engineOn then "text-emerald-400" else "text-zinc-300";
     lock_button_icon := if isLocked then "Unlock" else "Lock";
     lock_button := if isLocked then "Unlock Bike" else "Lock Bike";
     engine_button_icon := if engineOn then "PowerOff" else "Power";
     engine_button := if engineOn then "Turn Engine OFF" else "Turn Engine ON" |}.

(** One card of [PredictiveMaintenanceWidget], as far as it is chosen by the
    item: its icon ([iconMap[item.icon] || Droplets]), the ring of
    [CircularHealth], the bar, the class of the prediction text and the
    stroke of the trend line. *)
Record maintenance_card : Type := {
  card_key : string;
  IconComp : chosen string;
  ring : string;
  bar : string;
  prediction_class : string;
  stroke : string
}.

Definition maintenance_card_of (item : Maintenance.t) : maintenance_card :=
  let health := Maintenance.health item in
  {| card_key := Maintenance.part item;
     IconComp := get_or iconMap (Maintenance.icon item) "Droplets";
     ring := ringColor health;
     bar := barColor health;
     prediction_class :=
       if PrimFloat.leb 75 health then "text-green-400"
       else if PrimFloat.leb 50 health then "text-yellow-300"
       else "text-red-400";
     stroke :=
       if PrimFloat.leb 75 health then "#22c55e"
       else if PrimFloat.leb 50 health then "#f59e0b"
       else "#ef4444" |}.

Definition PredictiveMaintenanceWidget (items : list Maintenance.t)
  : list maintenance_card :=
  map maintenance_card_of items.

(** The two buttons of [SecurityWidget], wired by [App] to the toggles. *)
Inductive press : Type := LockButton | EngineButton.

Definition on_press (p : data) (b : press) : data :=
  match b with
  | LockButton => handleLockToggle p
  | EngineButton => handleEngineToggle p
  end.

(** The state after a sequence of presses. *)
Definition presses (p : data) (bs : list press) : data :=
  fold_left on_press bs p.

(** How often a button occurs in a sequence of presses. *)
Fixpoint count_lock (bs : list press) : nat :=
  match bs with
  | [] => O
  | LockButton :: rest => S (count_lock rest)
  | EngineButton :: rest => count_lock rest
  end.

Fixpoint count_engine (bs : list press) : nat :=
  match bs with
  | [] => O
  | EngineButton :: rest => S (count_engine rest)
  | LockButton :: rest => count_engine rest
  end.

(** The state with other values in its two security fields. *)
Definition with_security (status engine : string) (p : data) : data := {|
  liveStatus := liveStatus p;
  location := location p;
  security := {| Security.status := status; Security.engine := engine |};
  serviceAdvisor := serviceAdvisor p;
  predictiveMaintenance := predictiveMaintenance p
|}.

(** The three bands of a health value, by the colours of each. *)
Inductive band : Type := Green | Yellow | Red.

Definition band_colours (b : band) : string * string * string * string :=
  match b with
  | Green => ("#22c55e", "bg-green-500", "text-green-400", "#22c55e")
  | Yellow => ("#f59e0b", "bg-yellow-400", "text-yellow-300", "#f59e0b")
  | Red => ("#ef4444", "bg-red-500", "text-red-400", "#ef4444")
  end.

Definition card_colours (c : maintenance_card) : string * string * string * string :=
  (ring c, bar c, prediction_class c, stroke c).

End Widgets.

(* ===================================================================== *)
(** * Statements: utils/api.js                                           *)
(* ===================================================================== *)

Section ApiFacts.
Import Js Api.

(** [sendCommand] as one case analysis on what the network did. *)
Lemma sendCommand_eq (net : network) (action baseUrl : string) :
  sendCommand net action baseUrl =
  Normal (match outcome_of net action baseUrl with
          | Responded code body => if validateStatus code then body else failure_outcome
          | NoResponse _ => failure_outcome
          end).
Proof.
  unfold sendCommand, outcome_of.
  destruct (net _ _) as [cause | code body]; simpl; [reflexivity |].
  destruct (validateStatus code); reflexivity.
Qed.

(** C3, counterexample: a command the controller rejected with status 409 and
    a message of its own comes back from [sendCommand] as exactly the value
    returned when the controller could not be reached at all; the controller's
    message is gone. *)
Lemma sendCommand_rejected_looks_unsent :
  sendCommand rejecting "immobilize" "http://raspberrypi:5000/api"
  = sendCommand unreachable "immobilize" "http://raspberrypi:5000/api"
  /\ sendCommand rejecting "immobilize" "http://raspberrypi:5000/api"
     = Normal failure_outcome
  /\ field "message" failure_outcome <> Some (VStr "Engine is running").
Proof.
  repeat split; try reflexivity.
  simpl. intros H. inversion H.
Qed.

(** C3, as amended: a response with a non-success code is mapped to the fixed
    outcome of the [catch] branch, status ["error"] with the message
    ["Network or server error"], which is also the result for a request that
    got no response; the two results are equal. *)
Theorem sendCommand_rejected_as_unsent
    (net net' : network) (action baseUrl : string) (code : Z) (body : value)
    (cause : string) :
  outcome_of net action baseUrl = Responded code body ->
  validateStatus code = false ->
  outcome_of net' action baseUrl = NoResponse cause ->
  sendCommand net action baseUrl = Normal failure_outcome
  /\ sendCommand net' action baseUrl = sendCommand net action baseUrl
  /\ field "status" failure_outcome = Some (VStr "error")
  /\ field "message" failure_outcome = Some (VStr "Network or server error").
Proof.
  intros Hresp Hcode Hnone.
  rewrite !sendCommand_eq, Hresp, Hnone, Hcode.
  repeat split.
Qed.

Lemma sendCommand_rejected_as_unsent_witness :
  sendCommand rejecting "resume" "http://raspberrypi:5000/api" = Normal failure_outcome
  /\ sendCommand unreachable "resume" "http://raspberrypi:5000/api"
     = sendCommand rejecting "resume" "http://raspberrypi:5000/api"
  /\ field "status" failure_outcome = Some (VStr "error")
  /\ field "message" failure_outcome = Some (VStr "Network or server error").
Proof.
  apply (sendCommand_rejected_as_unsent rejecting unreachable "resume"
           "http://raspberrypi:5000/api" 409
           (VObj [("status", VStr "error"); ("message", VStr "Engine is running")])
           "connect ECONNREFUSED"); reflexivity.
Defined.

(** C4, counterexample: a payload that is not a command outcome, delivered
    with a success code, is a failure of the transport contract, and
    [sendCommand] returns it as it came: the result carries no error status
    and no message. *)
Lemma sendCommand_passes_malformed_payload :
  contract_failure (outcome_of garbling "immobilize" "http://raspberrypi:5000/api") = true
  /\ sendCommand garbling "immobilize" "http://raspberrypi:5000/api"
     = Normal (VStr "<html>Bad Gateway</html>")
  /\ is_error_outcome (VStr "<html>Bad Gateway</html>") = false.
Proof. repeat split. Qed.

(** C4, as amended: for every input and every outcome of the request,
    [sendCommand] returns a value and never throws. When the request fails at
    the transport (no response, or a non-success code) the value is the
    outcome with status ["error"] and the message ["Network or server error"];
    otherwise it is the body of the response, as received. *)
Theorem sendCommand_always_returns (net : network) (action baseUrl : string) :
  exists v : value,
    sendCommand net action baseUrl = Normal v
    /\ returns (sendCommand net action baseUrl) = true
    /\ (if transport_failed (outcome_of net action baseUrl)
        then v = failure_outcome /\ is_error_outcome v = true
        else exists code, outcome_of net action baseUrl = Responded code v).
Proof.
  rewrite sendCommand_eq.
  eexists; split; [reflexivity | split; [reflexivity |]].
  destruct (outcome_of net action baseUrl) as [cause | code body]; simpl.
  - split; reflexivity.
  - destruct (validateStatus code); simpl.
    + exists code; reflexivity.
    + split; reflexivity.
Qed.

End ApiFacts.

(* ===================================================================== *)
(** * Statements: SecurityControls                                       *)
(* ===================================================================== *)

Section SecurityControlsFacts.
Import Js Telemetry SecurityControls.

(** Settling a command always leaves the same state, whatever settled. *)
Lemma settle_forgets (bd : option bikeData) (st : state) (r r' : completion value) :
  step bd st (Settled r) = step bd st (Settled r').
Proof. reflexivity. Qed.

(** The panel always shows the snapshot's own immobilization flag. *)
Lemma displayed_is_snapshot (st : state) (bd : bikeData) :
  exists p, render st (Some bd) = Some p /\ displayed p = immobilization_status bd.
Proof.
  eexists; split; [reflexivity |].
  unfold displayed, immobilized; simpl.
  destruct (immobilization_status bd); reflexivity.
Qed.



(** Otherwise the click starts the command: [busy] is set and [sendCommand]
    is called once, with the action of the button. *)
Lemma click_accepted (st : state) (bd : bikeData) (a : action) :
  busy st = false -> immobilized bd = negb (target a) ->
  step (Some bd) st (Click a) = ({| busy := true |}, [SendCommand a]).
Proof.
  unfold step, click, render, button_for, immobilized.
  intros Hbusy Hneed.
  destruct a; simpl in *; rewrite Hbusy, Hneed; reflexivity.
Qed.

(** C5, counterexample: a command is clicked and resolves with the error
    outcome of [sendCommand]. [handleClick] completes with no value, the panel
    afterwards is the panel after a success, and the failure message appears
    in none of its texts. *)
Lemma failure_message_not_surfaced :
  let bd := Some (mockBikeData 1700000000000) in
  let failed := Normal Api.failure_outcome in
  let succeeded := Normal (VObj [("status", VStr "ok")]) in
  let st1 := fst (step bd initial (Click immobilize)) in
  let st2 := fst (step bd st1 (Settled failed)) in
  step bd initial (Click immobilize) = ({| busy := true |}, [SendCommand immobilize])
  /\ snd (handleClick_settle failed st1) = Normal tt
  /\ render st2 bd = render (fst (step bd st1 (Settled succeeded))) bd
  /\ existsb (occurs_in "Network or server error") (texts (render st2 bd)) = false.
Proof. repeat split. Qed.

(** C5, as amended: when a dispatched command settles, with an error outcome,
    a success or a rejection alike, the component clears [busy], shows the
    snapshot's own immobilization value (it never showed another), and calls
    [sendCommand] no second time; the outcome itself is dropped, so the state
    and the panel do not depend on it. *)
Theorem settle_clears_busy (st : state) (bd : bikeData) (r : completion value) :
  busy (fst (step (Some bd) st (Settled r))) = false
  /\ snd (step (Some bd) st (Settled r)) = []
  /\ (forall r', step (Some bd) st (Settled r') = step (Some bd) st (Settled r))
  /\ exists p, render (fst (step (Some bd) st (Settled r))) (Some bd) = Some p
               /\ displayed p = immobilization_status bd
               /\ working p = None.
Proof.
  repeat split.
  destruct (displayed_is_snapshot (fst (step (Some bd) st (Settled r))) bd)
    as [p [Hp Hd]].
  exists p; repeat split; try assumption.
  simpl in Hp. injection Hp as <-. reflexivity.
Qed.

(** C6, counterexample: the snapshot shows the engine active and a click on
    "immobilize" is accepted. The specification's control state then holds the
    optimistic value [true], and its rule displays [true]; the panel the
    component renders still displays the snapshot's [false]. *)
Lemma accepted_request_still_shows_snapshot :
  let bd := mockBikeData 1700000000000 in
  let idle := {| pending := false; optimisticImmobilized := None |} in
  step (Some bd) initial (Click immobilize) = ({| busy := true |}, [SendCommand immobilize])
  /\ optimisticImmobilized (on_acceptance immobilize idle) = Some true
  /\ displayed_by_rule (on_acceptance immobilize idle) (immobilization_status bd) = true
  /\ option_map displayed (render {| busy := true |} (Some bd)) = Some false.
Proof. repeat split. Qed.

(** C6, as amended: at every point in time the displayed immobilization value
    is the value of the snapshot passed in, whatever the component's state
    and whether or not a command is pending; no click and no settlement
    changes what is displayed for a snapshot, since the component keeps no
    optimistic value. *)
Theorem displayed_is_snapshot_value (st : state) (bd : bikeData) (ev : event) :
  exists p p',
    render st (Some bd) = Some p
    /\ displayed p = immobilization_status bd
    /\ render (fst (step (Some bd) st ev)) (Some bd) = Some p'
    /\ displayed p' = immobilization_status bd
    /\ status_text p' = status_text p.
Proof.
  destruct (displayed_is_snapshot st bd) as [p [Hp Hd]].
  destruct (displayed_is_snapshot (fst (step (Some bd) st ev)) bd) as [p' [Hp' Hd']].
  exists p, p'. repeat split; try assumption.
  cbn [render] in Hp, Hp'. injection Hp as <-. injection Hp' as <-. reflexivity.
Qed.

End SecurityControlsFacts.

(* ===================================================================== *)
(** * Statements: BikeMap                                                *)
(* ===================================================================== *)

Section BikeMapFacts.
Import Js Telemetry BikeMap.
Variable numberToString : float -> string.

(** C8: for every snapshot the component renders a panel without throwing.
    With both coordinates present the panel holds the map and its marker at
    [[gps_lat, gps_lon]]; with either one [null] or missing it holds the
    message "No GPS fix yet" and no marker. *)
Theorem BikeMap_marker (bd : bikeData) :
  exists p : panel,
    BikeMap numberToString (Some bd) = Normal (Some p)
    /\ heading p = "Location"
    /\ match gps_lat bd, gps_lon bd with
       | Some la, Some lo =>
           exists m, body p = MapContainer (Some la, Some lo) 15 m
                     /\ position m = (Some la, Some lo)
                     /\ marker_of p = Some m
       | _, _ => body p = NoLocation "No GPS fix yet" /\ marker_of p = None
       end.
Proof.
  unfold BikeMap, marker_of.
  destruct (gps_lat bd) as [la |], (gps_lon bd) as [lo |]; simpl;
    eexists; (split; [reflexivity |]); (split; [reflexivity |]); simpl.
  - eexists; repeat split.
  - split; reflexivity.
  - split; reflexivity.
  - split; reflexivity.
Qed.

(** The mock snapshot on the map. *)
Example BikeMap_of_mock :
  exists p m,
    BikeMap numberToString (Some (mockBikeData 1700000000000)) = Normal (Some p)
    /\ marker_of p = Some m
    /\ popup m = ["Bike Location"; "Lat: 37.42200, Lon: -122.08406"].
Proof. do 2 eexists. repeat split. Qed.

End BikeMapFacts.

(* ===================================================================== *)
(** * Statements: BikeStatusDisplay                                      *)
(* ===================================================================== *)

Section NumberFacts.
Import Js.

Lemma pow10_pos (f : nat) : 0 < 10 ^ Z.of_nat f.
Proof. apply Z.pow_pos_nonneg; lia. Qed.

Lemma nearest_scaled_nonneg (f : nat) (m : positive) (e : Z) :
  0 <= nearest_scaled f m e.
Proof.
  unfold nearest_scaled. pose proof (pow10_pos f) as H10.
  destruct e as [| p | p].
  - rewrite Z.pow_0_r. lia.
  - assert (0 < 2 ^ Z.pos p) by (apply Z.pow_pos_nonneg; lia). nia.
  - apply Z.div_pos; lia.
Qed.

(** The integer [toFixed] picks is within half a unit of the last digit of the
    magnitude it prints. *)
Lemma nearest_scaled_close (f : nat) (m : positive) (e : Z) :
  (Qabs (fixed_value false (nearest_scaled f m e) f - magnitude m e)
   <= 1 # (2 * Z.to_pos (10 ^ Z.of_nat f)))%Q.
Proof.
  pose proof (pow10_pos f) as H10.
  apply Qabs_Qle_condition.
  unfold fixed_value, magnitude, nearest_scaled.
  destruct (10 ^ Z.of_nat f) as [| s | s]; try lia.
  cbn [Z.to_pos].
  destruct e as [| p | p].
  - unfold Qle, Qminus, Qplus, Qopp, inject_Z; cbn [Qnum Qden].
    rewrite Z.pow_0_r. split; nia.
  - assert (0 < 2 ^ Z.pos p) by (apply Z.pow_pos_nonneg; lia).
    unfold Qle, Qminus, Qplus, Qopp, inject_Z; cbn [Qnum Qden].
    split; nia.
  - set (D := (2 ^ p)%positive).
    pose proof (Z.div_mod (2 * (Z.pos m * Z.pos s) + Z.pos D) (2 * Z.pos D) ltac:(lia)) as Hdm.
    pose proof (Z.mod_pos_bound (2 * (Z.pos m * Z.pos s) + Z.pos D) (2 * Z.pos D) ltac:(lia)) as Hb.
    set (n := (2 * (Z.pos m * Z.pos s) + Z.pos D) / (2 * Z.pos D)) in *.
    unfold Qle, Qminus, Qplus, Qopp; cbn [Qnum Qden].
    split; nia.
Qed.

Lemma fixed_value_neg (n : Z) (f : nat) :
  (fixed_value true n f == - fixed_value false n f)%Q.
Proof. unfold fixed_value, Qeq, Qopp; cbn [Qnum Qden]. reflexivity. Qed.

(** In its fixed range [toFixed] returns the decimal with [f] fraction digits
    nearest to the number. *)
Lemma toFixed_nearest (f : nat) (x : float) :
  fixed_range x = true ->
  exists neg n,
    toFixed f x = Fixed neg n f
    /\ 0 <= n
    /\ (Qabs (fixed_value neg n f - real x) <= 1 # (2 * Z.to_pos (10 ^ Z.of_nat f)))%Q.
Proof.
  unfold fixed_range, toFixed, real.
  destruct (Prim2SF x) as [s | s | | s m e]; try discriminate.
  - intros _. exists false, 0. repeat split; try lia.
    unfold fixed_value, Qminus, Qplus, Qopp, Qabs, Qle; cbn [Qnum Qden]. simpl. lia.
  - intros Hrange. apply negb_true_iff in Hrange. rewrite Hrange.
    exists s, (nearest_scaled f m e).
    split; [reflexivity |]. split; [apply nearest_scaled_nonneg |].
    pose proof (nearest_scaled_close f m e) as Hclose.
    destruct s; [| exact Hclose].
    rewrite fixed_value_neg.
    setoid_replace (- fixed_value false (nearest_scaled f m e) f - - magnitude m e)%Q
      with (- (fixed_value false (nearest_scaled f m e) f - magnitude m e))%Q by ring.
    rewrite Qabs_opp. exact Hclose.
Qed.

(** Comparing a numeral of one fraction digit with an integer constant is
    comparing the decimal it denotes. *)
Lemma lt_number_fixed1 (neg : bool) (n k : Z) :
  lt_number (Fixed neg n 1) k = true <-> (fixed_value neg n 1 < inject_Z k)%Q.
Proof.
  unfold lt_number, fixed_value, Qlt, inject_Z; cbn [Qnum Qden].
  change (10 ^ Z.of_nat 1) with 10. cbn [Z.to_pos].
  rewrite Z.ltb_lt. lia.
Qed.

Lemma gt_number_fixed1 (neg : bool) (n k : Z) :
  gt_number (Fixed neg n 1) k = true <-> (inject_Z k < fixed_value neg n 1)%Q.
Proof.
  unfold gt_number, fixed_value, Qlt, inject_Z; cbn [Qnum Qden].
  change (10 ^ Z.of_nat 1) with 10. cbn [Z.to_pos].
  rewrite Z.ltb_lt. lia.
Qed.

(** Outside its fixed range [toFixed] falls back to [Number::toString]. *)
Lemma toFixed_shortest (f : nat) (x : float) :
  fixed_range x = false -> toFixed f x = Shortest x.
Proof.
  unfold fixed_range, toFixed.
  destruct (Prim2SF x) as [s | s | | s m e]; try discriminate; try reflexivity.
  intros H. apply negb_false_iff in H. rewrite H. reflexivity.
Qed.

End NumberFacts.

Section ReadFacts.
Import Js JsRead.

Lemma digit_value_digit (d : Z) :
  0 <= d < 10 -> digit_value (digit d) = Some d.
Proof.
  intros H.
  assert (Hc : d = 0 \/ d = 1 \/ d = 2 \/ d = 3 \/ d = 4 \/ d = 5 \/ d = 6
               \/ d = 7 \/ d = 8 \/ d = 9) by lia.
  repeat (destruct Hc as [-> | Hc]; [reflexivity |]). subst d. reflexivity.
Qed.

Lemma read_digits_step (c : ascii) (d : Z) (rest : string) (acc : Z) :
  digit_value c = Some d ->
  read_digits (String c rest) acc = read_digits rest (10 * acc + d).
Proof. intros H. cbn [read_digits]. rewrite H. reflexivity. Qed.

Lemma read_uint_acc (d : Decimal.uint) :
  forall p : positive,
    read_digits (NilEmpty.string_of_uint d) (Zpos p) = Some (Zpos (Pos.of_uint_acc d p)).
Proof.
  induction d as [| d IH | d IH | d IH | d IH | d IH | d IH | d IH | d IH | d IH | d IH];
    intros p; cbn [NilEmpty.string_of_uint Pos.of_uint_acc]; [reflexivity | ..];
    match goal with
    | |- read_digits (String ?c _) _ = Some (Zpos (Pos.of_uint_acc _ ?q)) =>
        let v := eval vm_compute in (Z.of_nat (nat_of_ascii c) - 48) in
        rewrite (read_digits_step c v) by reflexivity;
        rewrite <- (IH q); f_equal; lia
    end.
Qed.

Lemma read_uint (d : Decimal.uint) :
  read_digits (NilEmpty.string_of_uint d) 0 = Some (Z.of_N (N.of_uint d)).
Proof.
  unfold N.of_uint.
  induction d as [| d IH | d IH | d IH | d IH | d IH | d IH | d IH | d IH | d IH | d IH];
    cbn [NilEmpty.string_of_uint Pos.of_uint]; [reflexivity | ..];
    match goal with
    | |- read_digits (String ?c _) _ = _ =>
        let v := eval vm_compute in (Z.of_nat (nat_of_ascii c) - 48) in
        rewrite (read_digits_step c v) by reflexivity
    end;
    [exact IH | ..]; cbn [Z.of_N]; apply read_uint_acc.
Qed.

(** The digits of a natural number read back as the number. *)
Lemma read_digits_digits (k : Z) :
  0 <= k -> read_digits (digits k) 0 = Some k.
Proof.
  intros Hk. unfold digits, NilZero.string_of_uint.
  pose proof (DecimalN.Unsigned.of_to (Z.to_N k)) as Hof.
  destruct (N.to_uint (Z.to_N k));
    try (rewrite read_uint, Hof, Z2N.id by lia; reflexivity).
  apply (f_equal Z.of_N) in Hof. rewrite Z2N.id in Hof by lia.
  cbn in Hof. subst k. reflexivity.
Qed.

Lemma digits_head (k : Z) :
  exists c rest, digits k = String c rest /\ Ascii.eqb c "-" = false.
Proof.
  unfold digits, NilZero.string_of_uint.
  destruct (N.to_uint (Z.to_N k)); cbn [NilEmpty.string_of_uint];
    eexists; eexists; split; reflexivity.
Qed.

Lemma fraction_digits_length (f : nat) (n : Z) :
  String.length (fraction_digits f n) = f.
Proof. induction f as [| f IH]; cbn; [reflexivity | rewrite IH; reflexivity]. Qed.

Lemma read_fraction_digits (f : nat) (n : Z) :
  forall acc, read_digits (fraction_digits f n) acc = Some (acc * 10 ^ Z.of_nat f + n mod 10 ^ Z.of_nat f).
Proof.
  induction f as [| f IH]; intros acc.
  - cbn [fraction_digits read_digits]. change (10 ^ Z.of_nat 0) with 1.
    rewrite Z.mod_1_r. f_equal. lia.
  - cbn [fraction_digits].
    assert (Hpos : 0 < 10 ^ Z.of_nat f) by (apply Z.pow_pos_nonneg; lia).
    rewrite (read_digits_step _ ((n / 10 ^ Z.of_nat f) mod 10)).
    + rewrite IH. f_equal.
      rewrite Nat2Z.inj_succ, Z.pow_succ_r by lia.
      replace (10 * 10 ^ Z.of_nat f) with (10 ^ Z.of_nat f * 10) by ring.
      rewrite Z.rem_mul_r by lia. ring.
    + apply digit_value_digit. apply Z.mod_pos_bound. lia.
Qed.

Lemma length_append (a b : string) :
  String.length (a ++ b) = (String.length a + String.length b)%nat.
Proof. induction a as [| c a IH]; cbn; [reflexivity | rewrite IH; reflexivity]. Qed.

Lemma split_at_append (a b : string) :
  split_at (String.length a) (a ++ b) = (a, b).
Proof.
  induction a as [| c a IH]; cbn.
  - destruct b; reflexivity.
  - rewrite IH. reflexivity.
Qed.

Lemma read_unsigned_printed (f : nat) (n : Z) :
  0 <= n ->
  read_unsigned (S f)
    (digits (n / 10 ^ Z.of_nat (S f)) ++ String "." (fraction_digits (S f) n))
  = Some n.
Proof.
  intros Hn.
  assert (Hpos : 0 < 10 ^ Z.of_nat (S f)) by (apply Z.pow_pos_nonneg; lia).
  set (w := n / 10 ^ Z.of_nat (S f)).
  assert (Hw : 0 <= w) by (apply Z.div_pos; lia).
  unfold read_unsigned.
  rewrite length_append. cbn [String.length]. rewrite fraction_digits_length.
  replace (String.length (digits w) + S (S f) - S (S f))%nat
    with (String.length (digits w)) by lia.
  rewrite split_at_append.
  destruct (digits_head w) as [c [rest [Hhead _]]].
  pose proof (read_digits_digits w Hw) as Hrd.
  rewrite Hhead in Hrd |- *.
  change (Ascii.eqb "." ".") with true.
  rewrite fraction_digits_length, Nat.eqb_refl. cbn [andb].
  rewrite Hrd, read_fraction_digits.
  f_equal. unfold w.
  rewrite (Z.div_mod n (10 ^ Z.of_nat (S f))) at 3 by lia. ring.
Qed.

(** What [toFixed] prints with [f >= 1] fraction digits reads back as the
    rational of the numeral. *)
Lemma read_fixed_text (nts : float -> string) (neg : bool) (n : Z) (f : nat) :
  0 <= n ->
  read_fixed (S f) (text nts (Fixed neg n (S f))) = Some (fixed_value neg n (S f)).
Proof.
  intros Hn.
  assert (Htext : text nts (Fixed neg n (S f))
                  = (if neg then "-" else "")
                      ++ (digits (n / 10 ^ Z.of_nat (S f))
                          ++ String "." (fraction_digits (S f) n)))
    by reflexivity.
  rewrite Htext. unfold fixed_value.
  destruct neg.
  - change ("-" ++ ?x) with (String "-" x). cbn [append read_fixed].
    change (Ascii.eqb "-" "-") with true. cbv iota.
    rewrite (read_unsigned_printed f n Hn). reflexivity.
  - cbn [append].
    destruct (digits_head (n / 10 ^ Z.of_nat (S f))) as [c [rest [Hhead Hc]]].
    pose proof (read_unsigned_printed f n Hn) as Hread.
    rewrite Hhead in Hread |- *. cbn [append read_fixed] in Hread |- *.
    rewrite Hc, Hread. reflexivity.
Qed.
End ReadFacts.

Section BikeStatusDisplayFacts.
Import Js Telemetry BikeStatusDisplay.
Variable numberToString : float -> string.

Lemma tire_item_without_psi (bd : bikeData) :
  tirePressurePsi bd = None -> tire_item numberToString bd = placeholder_item.
Proof.
  intros H. unfold tire_item, tireClass. rewrite H. reflexivity.
Qed.

Lemma zero_is_falsy (kpa : float) :
  PrimFloat.eqb kpa 0%float = true -> truthy_number kpa = false.
Proof. intros H. unfold truthy_number. rewrite H. reflexivity. Qed.

Lemma falsy_without_psi (bd : bikeData) (kpa : float) :
  tire_pressure_kpa bd = Some kpa -> truthy_number kpa = false ->
  tirePressurePsi bd = None.
Proof. intros Hkpa Hf. unfold tirePressurePsi. rewrite Hkpa, Hf. reflexivity. Qed.

(** C9, counterexample: a reading of 1e22 kPa is not zero, and its line does
    not show the product rounded to one decimal place: [toFixed] leaves fixed
    notation there, and with the product printed by [Number::toString] as
    "1.4503769999999998e+21" the line reads
    "Rear Tire: 1.4503769999999998e+21 PSI", which is no numeral with one
    fraction digit. A reading of [NaN] is not zero either and gets the
    placeholder. *)
Lemma rear_tire_line_not_one_decimal :
  let bd := with_tire_pressure (Some 1e22%float) (mockBikeData 0) in
  let nan := with_tire_pressure (Some PrimFloat.nan) (mockBikeData 0) in
  PrimFloat.eqb 1e22 0 = false
  /\ tirePressurePsi bd = Some (Shortest (1e22 * 0.1450377)%float)
  /\ BikeStatusDisplay (fun _ => "1.4503769999999998e+21") (Some bd)
     = Some [engine_item (fun _ => "") bd; battery_item (fun _ => "") bd;
             {| className := "warn"; content := "Rear Tire: 1.4503769999999998e+21 PSI" |};
             moving_item bd]
  /\ JsRead.read_fixed 1 "1.4503769999999998e+21" = None
  /\ PrimFloat.eqb PrimFloat.nan 0 = false
  /\ tire_item (fun _ => "") nan = placeholder_item.
Proof. repeat split. Qed.

(** C9, as amended: a tire pressure reading of 0 (or [NaN]) gives the
    placeholder as the rear tire line of [BikeStatusDisplay], the very line of
    a snapshot without a reading. For every other reading whose product with
    0.1450377 has a magnitude below [10^21], the line reads "Rear Tire: ",
    the numeral with one fraction digit nearest to that product, " PSI", and
    it has the warning class exactly when the value of that numeral is below
    28 or above 40. From [10^21] on the line shows the product as
    [Number::toString] prints it, "Infinity" for an infinite one, and warns by
    the product itself. *)
Theorem rear_tire_line_shown (bd : bikeData) (kpa : float) :
  tire_pressure_kpa bd = Some kpa ->
  exists items line,
    BikeStatusDisplay numberToString (Some bd) = Some items
    /\ nth_error items 2 = Some line
    /\ (truthy_number kpa = false ->
        line = {| className := "ok"; content := "Rear Tire: —" |}
        /\ exists items',
             BikeStatusDisplay numberToString (Some (with_tire_pressure None bd))
             = Some items'
             /\ nth_error items' 2 = Some line)
    /\ (truthy_number kpa = true ->
        fixed_range (kpa * 0.1450377)%float = true ->
        exists t v,
          content line = "Rear Tire: " ++ t ++ " PSI"
          /\ JsRead.read_fixed 1 t = Some v
          /\ (Qabs (v - real (kpa * 0.1450377)%float) <= 1 # 20)%Q
          /\ (className line = "warn" <-> (v < inject_Z 28)%Q \/ (inject_Z 40 < v)%Q)
          /\ (className line = "warn" \/ className line = "ok"))
    /\ (truthy_number kpa = true ->
        fixed_range (kpa * 0.1450377)%float = false ->
        content line
        = "Rear Tire: " ++ text numberToString (Shortest (kpa * 0.1450377)%float) ++ " PSI"
        /\ (JsOrder.finite (kpa * 0.1450377)%float = true ->
            text numberToString (Shortest (kpa * 0.1450377)%float)
            = numberToString (kpa * 0.1450377)%float)
        /\ (forall sign, Prim2SF (kpa * 0.1450377)%float = S754_infinity sign ->
            content line
            = if sign then "Rear Tire: -Infinity PSI" else "Rear Tire: Infinity PSI")
        /\ (className line = "warn"
            <-> PrimFloat.ltb (kpa * 0.1450377)%float 28%float = true
                \/ PrimFloat.ltb 40%float (kpa * 0.1450377)%float = true)
        /\ (className line = "warn" \/ className line = "ok")).
Proof.
  intros Hkpa.
  exists [engine_item numberToString bd; battery_item numberToString bd;
          tire_item numberToString bd; moving_item bd], (tire_item numberToString bd).
  split; [reflexivity |]. split; [reflexivity |].
  change (kpa * 0.1450377)%float with (kpa * psi_per_kpa)%float.
  split; [| split].
  - intros Hfalsy.
    rewrite (tire_item_without_psi bd (falsy_without_psi bd kpa Hkpa Hfalsy)).
    split; [reflexivity |].
    exists [engine_item numberToString (with_tire_pressure None bd);
            battery_item numberToString (with_tire_pressure None bd);
            tire_item numberToString (with_tire_pressure None bd);
            moving_item (with_tire_pressure None bd)].
    split; [reflexivity |].
    cbn [nth_error]. rewrite (tire_item_without_psi (with_tire_pressure None bd) eq_refl).
    reflexivity.
  - intros Htruthy Hrange.
    destruct (toFixed_nearest 1 _ Hrange) as [neg [n [Hfix [Hn Hclose]]]].
    assert (Hpsi : tirePressurePsi bd = Some (Fixed neg n 1)).
    { unfold tirePressurePsi. rewrite Hkpa, Htruthy, Hfix. reflexivity. }
    exists (text numberToString (Fixed neg n 1)), (fixed_value neg n 1).
    split; [unfold tire_item; cbn [content]; rewrite Hpsi; reflexivity |].
    split; [apply read_fixed_text; exact Hn |].
    split; [exact Hclose |].
    unfold tire_item, tireClass; cbn [className]. rewrite Hpsi.
    rewrite <- lt_number_fixed1, <- gt_number_fixed1.
    destruct (lt_number (Fixed neg n 1) 28) eqn:Hlt;
      destruct (gt_number (Fixed neg n 1) 40) eqn:Hgt; cbn [orb];
      (split; [| auto]); split; auto.
    + intros Hw; discriminate Hw.
    + intros [H | H]; discriminate H.
  - intros Htruthy Hrange.
    assert (Hpsi : tirePressurePsi bd = Some (Shortest (kpa * psi_per_kpa)%float)).
    { unfold tirePressurePsi.
      rewrite Hkpa, Htruthy, (toFixed_shortest 1 _ Hrange). reflexivity. }
    split; [unfold tire_item; cbn [content]; rewrite Hpsi; reflexivity |].
    split.
    { unfold JsOrder.finite, text, fixed_range in *.
      destruct (Prim2SF (kpa * psi_per_kpa)%float); try discriminate; reflexivity. }
    split.
    { intros sign Hinf. unfold tire_item; cbn [content]. rewrite Hpsi.
      unfold text. rewrite Hinf. destruct sign; reflexivity. }
    unfold tire_item, tireClass; cbn [className]. rewrite Hpsi.
    change (lt_number (Shortest (kpa * psi_per_kpa)%float) 28)
      with (PrimFloat.ltb (kpa * psi_per_kpa)%float 28%float).
    change (gt_number (Shortest (kpa * psi_per_kpa)%float) 40)
      with (PrimFloat.ltb 40%float (kpa * psi_per_kpa)%float).
    destruct (PrimFloat.ltb (kpa * psi_per_kpa)%float 28%float) eqn:Hlt;
      destruct (PrimFloat.ltb 40%float (kpa * psi_per_kpa)%float) eqn:Hgt; cbn [orb];
      (split; [| auto]); split; auto.
    + intros Hw; discriminate Hw.
    + intros [H | H]; discriminate H.
Qed.

(** The mock snapshot: 220 kPa is shown as 31.9 PSI, without warning. *)
Example tire_line_of_mock :
  tire_item numberToString (mockBikeData 1700000000000)
  = {| className := "ok"; content := "Rear Tire: 31.9 PSI" |}.
Proof. reflexivity. Qed.

(** The comparison is made on the displayed decimal: 193 kPa is a product
    below 28, shown as 28.0 PSI, and gets no warning; 192 kPa is shown as
    27.8 PSI and does. *)
Example tire_line_compares_the_rounded_value :
  (real (193 * psi_per_kpa)%float < inject_Z 28)%Q
  /\ tire_item numberToString (with_tire_pressure (Some 193%float) (mockBikeData 0))
     = {| className := "ok"; content := "Rear Tire: 28.0 PSI" |}
  /\ tire_item numberToString (with_tire_pressure (Some 192%float) (mockBikeData 0))
     = {| className := "warn"; content := "Rear Tire: 27.8 PSI" |}.
Proof. repeat split. Qed.

End BikeStatusDisplayFacts.

Lemma rear_tire_line_shown_witness :
  exists items line,
    BikeStatusDisplay.BikeStatusDisplay (fun _ => "")
      (Some (Telemetry.mockBikeData 1700000000000)) = Some items
    /\ nth_error items 2 = Some line
    /\ exists t v,
         BikeStatusDisplay.content line = "Rear Tire: " ++ t ++ " PSI"
         /\ JsRead.read_fixed 1 t = Some v
         /\ (Qabs (v - Js.real (220 * 0.1450377)%float) <= 1 # 20)%Q
         /\ (BikeStatusDisplay.className line = "warn"
             <-> (v < inject_Z 28)%Q \/ (inject_Z 40 < v)%Q)
         /\ (BikeStatusDisplay.className line = "warn"
             \/ BikeStatusDisplay.className line = "ok").
Proof.
  destruct (rear_tire_line_shown (fun _ => "") (Telemetry.mockBikeData 1700000000000)
              220%float eq_refl)
    as [items [line [Hitems [Hline [_ [Hshown _]]]]]].
  exists items, line.
  split; [exact Hitems |]. split; [exact Hline |].
  apply Hshown; reflexivity.
Defined.

(* ===================================================================== *)
(** * Statements: App.js                                                 *)
(* ===================================================================== *)

Section AppFacts.
Import App.

(** The lock toggle writes [security.status] and nothing else. *)
Lemma handleLockToggle_frame (p : data) :
  liveStatus (handleLockToggle p) = liveStatus p
  /\ location (handleLockToggle p) = location p
  /\ serviceAdvisor (handleLockToggle p) = serviceAdvisor p
  /\ predictiveMaintenance (handleLockToggle p) = predictiveMaintenance p
  /\ Security.engine (security (handleLockToggle p)) = Security.engine (security p).
Proof. repeat split. Qed.

(** The engine toggle writes [security.engine] and nothing else. *)
Lemma handleEngineToggle_frame (p : data) :
  liveStatus (handleEngineToggle p) = liveStatus p
  /\ location (handleEngineToggle p) = location p
  /\ serviceAdvisor (handleEngineToggle p) = serviceAdvisor p
  /\ predictiveMaintenance (handleEngineToggle p) = predictiveMaintenance p
  /\ Security.status (security (handleEngineToggle p)) = Security.status (security p).
Proof. repeat split. Qed.

(** In every state of the dashboard the two security fields hold one of
    their two constants. *)
Lemma dashboard_state_security (p : data) :
  dashboard_state p ->
  (Security.status (security p) = "Locked" \/ Security.status (security p) = "Unlocked")
  /\ (Security.engine (security p) = "On" \/ Security.engine (security p) = "Off").
Proof.
  induction 1 as [| p Hp [IHs IHe] | p Hp [IHs IHe]].
  - split; [left | right]; reflexivity.
  - split; [| exact IHe]. cbn.
    destruct IHs as [-> | ->]; [right | left]; reflexivity.
  - split; [exact IHs |]. cbn.
    destruct IHe as [-> | ->]; [right | left]; reflexivity.
Qed.

(** C10: in every state of the dashboard, [handleLockToggle] exchanges
    'Locked' and 'Unlocked' in [security.status] and [handleEngineToggle]
    exchanges 'On' and 'Off' in [security.engine]; each leaves every other
    field as it was, and each applied twice gives the state back. *)
Theorem toggles_frame_and_involution (p : data) :
  dashboard_state p ->
  (swapped "Locked" "Unlocked"
     (Security.status (security p)) (Security.status (security (handleLockToggle p)))
   /\ Security.engine (security (handleLockToggle p)) = Security.engine (security p)
   /\ liveStatus (handleLockToggle p) = liveStatus p
   /\ location (handleLockToggle p) = location p
   /\ serviceAdvisor (handleLockToggle p) = serviceAdvisor p
   /\ predictiveMaintenance (handleLockToggle p) = predictiveMaintenance p)
  /\ (swapped "On" "Off"
        (Security.engine (security p)) (Security.engine (security (handleEngineToggle p)))
      /\ Security.status (security (handleEngineToggle p)) = Security.status (security p)
      /\ liveStatus (handleEngineToggle p) = liveStatus p
      /\ location (handleEngineToggle p) = location p
      /\ serviceAdvisor (handleEngineToggle p) = serviceAdvisor p
      /\ predictiveMaintenance (handleEngineToggle p) = predictiveMaintenance p)
  /\ handleLockToggle (handleLockToggle p) = p
  /\ handleEngineToggle (handleEngineToggle p) = p.
Proof.
  intros Hp. destruct (dashboard_state_security p Hp) as [Hs He].
  destruct p as [ls loc [st en] sa pm]; cbn in Hs, He.
  unfold swapped, handleLockToggle, handleEngineToggle; cbn.
  repeat split.
  - destruct Hs as [-> | ->]; [left | right]; split; reflexivity.
  - destruct He as [-> | ->]; [left | right]; split; reflexivity.
  - destruct Hs as [-> | ->]; reflexivity.
  - destruct He as [-> | ->]; reflexivity.
Qed.

Lemma toggles_frame_and_involution_witness :
  handleLockToggle (handleLockToggle (handleEngineToggle mockBikeDataObject))
  = handleEngineToggle mockBikeDataObject
  /\ handleEngineToggle (handleEngineToggle (handleEngineToggle mockBikeDataObject))
     = handleEngineToggle mockBikeDataObject.
Proof.
  apply (toggles_frame_and_involution (handleEngineToggle mockBikeDataObject)).
  apply ds_engine. apply ds_initial.
Defined.

End AppFacts.

(* ===================================================================== *)
(** * Statements: the Poller                                             *)
(* ===================================================================== *)

Section PollerFacts.
Import Poller.

Lemma published_app (a b : list output) :
  published (a ++ b) = (published a ++ published b)%list.
Proof.
  induction a as [| o a IH]; [reflexivity |].
  destruct o; simpl; rewrite IH; reflexivity.
Qed.

(** One transition either publishes nothing and keeps the last accepted
    snapshot, or publishes a snapshot that the policy accepts and that
    becomes the last accepted one. *)
Lemma step_publishes (st : state) (i : input) :
  (published (snd (step st i)) = []
   /\ lastAccepted (fst (step st i)) = lastAccepted st)
  \/ (exists s, published (snd (step st i)) = [timestampUnixSeconds s]
                /\ lastAccepted (fst (step st i)) = Some s
                /\ accepts (lastAccepted st) s = true).
Proof.
  destruct i as [| | | [s | e]]; simpl.
  - left; split; reflexivity.
  - left; split; reflexivity.
  - destruct (phase st); [left; split; reflexivity |].
    destruct (outstanding st); left; split; reflexivity.
  - destruct (phase st); [left; split; reflexivity |].
    destruct (accepts (lastAccepted st) s) eqn:Ha.
    + right; exists s; repeat split; assumption.
    + left; split; reflexivity.
  - destruct (phase st); left; split; reflexivity.
Qed.

Lemma accepts_not_before (last : option TelemetrySnapshot) (s : TelemetrySnapshot) :
  accepts last s = true -> not_before last (timestampUnixSeconds s).
Proof.
  destruct last as [l |]; simpl; [| trivial].
  intros H; apply Z.leb_le; exact H.
Qed.

(** Whatever is published from a state on is in order and no older than the
    snapshot last accepted there. *)
Lemma run_in_order (ins : list input) :
  forall st : state,
    Forall (not_before (lastAccepted st)) (published (snd (run st ins)))
    /\ StronglySorted Z.le (published (snd (run st ins))).
Proof.
  induction ins as [| i rest IH]; intros st; simpl.
  - split; constructor.
  - destruct (step st i) as [st1 out1] eqn:Hstep.
    destruct (run st1 rest) as [st2 out2] eqn:Hrun.
    simpl. rewrite published_app.
    destruct (IH st1) as [Hfloor Hsorted]. rewrite Hrun in Hfloor, Hsorted; simpl in *.
    destruct (step_publishes st i) as [[Hnone Hlast] | [s [Hone [Hlast Hacc]]]];
      rewrite Hstep in *; simpl in *.
    + rewrite Hnone; simpl. rewrite Hlast in Hfloor. split; assumption.
    + rewrite Hone; simpl. rewrite Hlast in Hfloor. simpl in Hfloor.
      apply accepts_not_before in Hacc.
      split.
      * constructor; [exact Hacc |].
        eapply Forall_impl; [| exact Hfloor].
        intros t Ht. destruct (lastAccepted st) as [l |]; simpl in *; [lia | trivial].
      * constructor; assumption.
Qed.

(** C1: whatever the Poller is given, in whatever order the fetch results
    arrive, the timestamps of the snapshots it publishes never decrease. While
    polling, a delivered snapshot is accepted and published when its timestamp
    is at least the last accepted one's; otherwise nothing is published and
    the last accepted snapshot stays. *)
Theorem poller_publishes_in_order (st : state) (ins : list input) :
  StronglySorted Z.le (published (snd (run st ins)))
  /\ forall s : TelemetrySnapshot,
       phase st = Polling ->
       (accepts (lastAccepted st) s = true ->
          snd (step st (Delivered (Ok s))) = [Publish s]
          /\ lastAccepted (fst (step st (Delivered (Ok s)))) = Some s)
       /\ (accepts (lastAccepted st) s = false ->
             snd (step st (Delivered (Ok s))) = []
             /\ lastAccepted (fst (step st (Delivered (Ok s)))) = lastAccepted st).
Proof.
  split; [apply run_in_order |].
  intros s Hphase; simpl; rewrite Hphase.
  split; intros Ha; rewrite Ha; split; reflexivity.
Qed.

Lemma poller_publishes_in_order_witness :
  StronglySorted Z.le
    (published (snd (run initial
       [Start; Tick; Delivered (Ok (snapshot_at 100 false));
        Tick; Delivered (Ok (snapshot_at 98 true));
        Tick; Delivered (Ok (snapshot_at 105 true))])))
  /\ snd (step {| phase := Polling;
                  lastAccepted := Some (snapshot_at 100 false);
                  outstanding := true |}
               (Delivered (Ok (snapshot_at 98 true)))) = []
  /\ lastAccepted
       (fst (step {| phase := Polling;
                     lastAccepted := Some (snapshot_at 100 false);
                     outstanding := true |}
                  (Delivered (Ok (snapshot_at 98 true)))))
     = Some (snapshot_at 100 false).
Proof.
  split.
  - apply (poller_publishes_in_order initial).
  - apply (poller_publishes_in_order
             {| phase := Polling;
                lastAccepted := Some (snapshot_at 100 false);
                outstanding := true |} []); reflexivity.
Defined.

Lemma step_keeps_polling (st : state) (i : input) :
  phase st = Polling -> is_stop i = false -> phase (fst (step st i)) = Polling.
Proof.
  intros Hphase Hstop.
  destruct i as [| | | [s | e]]; simpl in *; try discriminate; try reflexivity;
    rewrite Hphase.
  - destruct (outstanding st); simpl; auto.
  - destruct (accepts (lastAccepted st) s); simpl; auto.
  - reflexivity.
Qed.

Lemma run_keeps_polling (ins : list input) :
  forall st, phase st = Polling -> no_stop ins = true ->
             phase (fst (run st ins)) = Polling.
Proof.
  induction ins as [| i rest IH]; intros st Hphase Hns; simpl; [exact Hphase |].
  destruct (step st i) as [st1 out1] eqn:Hstep.
  destruct (run st1 rest) as [st2 out2] eqn:Hrun.
  simpl.
  assert (Hi : is_stop i = false /\ no_stop rest = true).
  { destruct i; simpl in *; try discriminate; split; auto. }
  destruct Hi as [Hi Hrest].
  pose proof (step_keeps_polling st i Hphase Hi) as H1. rewrite Hstep in H1; simpl in H1.
  pose proof (IH st1 H1 Hrest) as H2. rewrite Hrun in H2. exact H2.
Qed.

(** C7: a started Poller that is given no explicit stop is still polling
    after any sequence of ticks and fetch results, failed or not. From there a
    delivered result of either kind leaves it polling, and the next tick
    issues a fetch again; only an explicit stop takes it to Idle. *)
Theorem poller_never_halts (st : state) (ins : list input) :
  phase st = Polling ->
  no_stop ins = true ->
  phase (fst (run st ins)) = Polling
  /\ (forall r : fetched,
        phase (fst (step (fst (run st ins)) (Delivered r))) = Polling
        /\ snd (step (fst (step (fst (run st ins)) (Delivered r))) Tick) = [Fetch])
  /\ phase (fst (step (fst (run st ins)) Stop)) = Idle
  /\ (forall i : input, phase (fst (step (fst (run st ins)) i)) = Idle -> i = Stop).
Proof.
  intros Hphase Hns.
  pose proof (run_keeps_polling ins st Hphase Hns) as Hp.
  set (st' := fst (run st ins)) in *.
  split; [exact Hp |]. split; [| split].
  - intros r.
    pose proof (step_keeps_polling st' (Delivered r) Hp eq_refl) as H1.
    split; [exact H1 |].
    destruct r as [s | e]; simpl; rewrite Hp.
    + destruct (accepts (lastAccepted st') s); reflexivity.
    + reflexivity.
  - reflexivity.
  - intros i Hidle.
    destruct (is_stop i) eqn:Hi.
    + destruct i; try discriminate; reflexivity.
    + rewrite (step_keeps_polling st' i Hp Hi) in Hidle; discriminate.
Qed.

Lemma poller_never_halts_witness :
  phase (fst (run (fst (step initial Start)) two_failures_then_success)) = Polling
  /\ (forall r : fetched,
        phase (fst (step (fst (run (fst (step initial Start)) two_failures_then_success))
                      (Delivered r))) = Polling
        /\ snd (step (fst (step (fst (run (fst (step initial Start))
                                        two_failures_then_success))
                             (Delivered r))) Tick) = [Fetch])
  /\ phase (fst (step (fst (run (fst (step initial Start)) two_failures_then_success))
                  Stop)) = Idle
  /\ (forall i : input,
        phase (fst (step (fst (run (fst (step initial Start)) two_failures_then_success))
                      i)) = Idle -> i = Stop).
Proof.
  apply (poller_never_halts (fst (step initial Start)) two_failures_then_success);
    reflexivity.
Defined.

(** Scenario: the fetch fails twice, then succeeds; the Poller fetches on
    every tick, and publishes two "fetch failed" events, then the snapshot. *)
Example poller_two_failures_then_success :
  snd (run (fst (step initial Start)) two_failures_then_success)
  = [Fetch; FetchFailed "connection lost";
     Fetch; FetchFailed "connection lost";
     Fetch; Publish (snapshot_at 100 false)].
Proof. reflexivity. Qed.

(** Scenario: the snapshot of timestamp 100 is accepted; a late one of
    timestamp 98 is dropped, and the one of timestamp 100 stays. *)
Example poller_drops_late_snapshot :
  let ins := [Start; Tick; Delivered (Ok (snapshot_at 100 false));
              Tick; Delivered (Ok (snapshot_at 98 true))] in
  snd (run initial ins) = [Fetch; Publish (snapshot_at 100 false); Fetch]
  /\ lastAccepted (fst (run initial ins)) = Some (snapshot_at 100 false).
Proof. split; reflexivity. Qed.

End PollerFacts.

(* ===================================================================== *)
(** * Further statements: numbers                                        *)
(* ===================================================================== *)

Section FloatOrderFacts.
Import Js JsOrder.

Lemma digits2_pos_bounds (m : positive) :
  2 ^ (Zpos (digits2_pos m) - 1) <= Zpos m < 2 ^ Zpos (digits2_pos m).
Proof.
  induction m as [p IH | p IH |]; cbn [digits2_pos].
  - rewrite Pos2Z.inj_succ.
    replace (Z.succ (Zpos (digits2_pos p)) - 1) with (Z.succ (Zpos (digits2_pos p) - 1)) by lia.
    rewrite !Z.pow_succ_r by lia. lia.
  - rewrite Pos2Z.inj_succ.
    replace (Z.succ (Zpos (digits2_pos p)) - 1) with (Z.succ (Zpos (digits2_pos p) - 1)) by lia.
    rewrite !Z.pow_succ_r by lia. lia.
  - cbn. lia.
Qed.

Lemma valid_finite_bounds (s : bool) (m : positive) (e : Z) :
  valid_binary (S754_finite s m e) = true ->
  -1074 <= e /\ Zpos m < 2 ^ 53 /\ (-1074 < e -> 2 ^ 52 <= Zpos m).
Proof.
  unfold SpecFloat.valid_binary, bounded, canonical_mantissa, fexp, emin, prec, emax.
  intros H. apply andb_true_iff in H. destruct H as [Hc _].
  apply Z.eqb_eq in Hc.
  pose proof (digits2_pos_bounds m) as [Hlo Hhi].
  set (d := Zpos (digits2_pos m)) in *.
  assert (Hd : d <= 53) by lia.
  split; [lia |]. split.
  - apply Z.lt_le_trans with (2 ^ d); [exact Hhi |].
    apply Z.pow_le_mono_r; lia.
  - intros He. assert (d = 53) by lia. subst d.
    replace 52 with (Zpos (digits2_pos m) - 1) by lia. exact Hlo.
Qed.

Lemma pow2_pos (k : Z) : 0 <= k -> 0 < 2 ^ k.
Proof. intros; apply Z.pow_pos_nonneg; lia. Qed.

(** Among valid finite numbers a smaller exponent means a smaller magnitude. *)
Lemma smaller_exponent (s1 s2 : bool) (m1 m2 : positive) (e1 e2 : Z) :
  valid_binary (S754_finite s1 m1 e1) = true ->
  valid_binary (S754_finite s2 m2 e2) = true ->
  e1 < e2 ->
  Zpos m1 * 2 ^ (e1 + 1074) < Zpos m2 * 2 ^ (e2 + 1074).
Proof.
  intros H1 H2 Hlt.
  destruct (valid_finite_bounds _ _ _ H1) as [He1 [Hm1 _]].
  destruct (valid_finite_bounds _ _ _ H2) as [He2 [_ Hm2]].
  specialize (Hm2 ltac:(lia)).
  pose proof (pow2_pos (e1 + 1074) ltac:(lia)) as Hp1.
  assert (Hstep : 2 * 2 ^ (e1 + 1074) <= 2 ^ (e2 + 1074)).
  { rewrite <- Z.pow_succ_r by lia. apply Z.pow_le_mono_r; lia. }
  change (2 ^ 53) with (2 * 2 ^ 52) in Hm1.
  assert (H52 : 0 < 2 ^ 52) by (apply pow2_pos; lia).
  set (A := 2 ^ (e1 + 1074)) in *. set (B := 2 ^ (e2 + 1074)) in *.
  set (T := 2 ^ 52) in *.
  nia.
Qed.

Lemma same_exponent (m1 m2 : positive) (k : Z) :
  0 <= k ->
  (Zpos m1 * 2 ^ k ?= Zpos m2 * 2 ^ k) = (m1 ?= m2)%positive.
Proof.
  intros Hk. pose proof (pow2_pos k Hk) as Hp.
  destruct (Pos.compare_spec m1 m2) as [Heq | Hlt | Hgt].
  - subst m2. apply Z.compare_refl.
  - apply Z.compare_lt_iff. apply Z.mul_lt_mono_pos_r; lia.
  - apply Z.compare_gt_iff. apply Z.mul_lt_mono_pos_r; lia.
Qed.

(** On valid finite numbers the comparison of the format is the comparison of
    the scaled integers. *)
Lemma SFcompare_scaled (f1 f2 : spec_float) :
  valid_binary f1 = true -> valid_binary f2 = true ->
  match f1 with S754_zero _ | S754_finite _ _ _ => True | _ => False end ->
  match f2 with S754_zero _ | S754_finite _ _ _ => True | _ => False end ->
  SFcompare f1 f2 = Some (scaled f1 ?= scaled f2).
Proof.
  intros V1 V2 F1 F2.
  destruct f1 as [s1 | s1 | | s1 m1 e1]; try contradiction;
    destruct f2 as [s2 | s2 | | s2 m2 e2]; try contradiction; cbn [SFcompare scaled].
  - reflexivity.
  - destruct (valid_finite_bounds _ _ _ V2) as [He2 _].
    pose proof (pow2_pos (e2 + 1074) ltac:(lia)) as Hp.
    f_equal. symmetry. destruct s2.
    + apply Z.compare_gt_iff. nia.
    + apply Z.compare_lt_iff. nia.
  - destruct (valid_finite_bounds _ _ _ V1) as [He1 _].
    pose proof (pow2_pos (e1 + 1074) ltac:(lia)) as Hp.
    f_equal. symmetry. destruct s1.
    + apply Z.compare_lt_iff. nia.
    + apply Z.compare_gt_iff. nia.
  - destruct (valid_finite_bounds _ _ _ V1) as [He1 _].
    destruct (valid_finite_bounds _ _ _ V2) as [He2 _].
    pose proof (pow2_pos (e1 + 1074) ltac:(lia)) as Hp1.
    pose proof (pow2_pos (e2 + 1074) ltac:(lia)) as Hp2.
    f_equal. symmetry.
    destruct s1, s2.
    + rewrite Z.compare_opp.
      destruct (Z.compare_spec e1 e2) as [Heq | Hlt | Hgt].
      * subst e2. rewrite same_exponent by lia.
        rewrite Pos.compare_cont_spec, (Pos.compare_antisym m1 m2).
        destruct (m1 ?= m2)%positive; reflexivity.
      * apply Z.compare_gt_iff. apply (smaller_exponent _ _ _ _ _ _ V1 V2 Hlt).
      * apply Z.compare_lt_iff. apply (smaller_exponent _ _ _ _ _ _ V2 V1 Hgt).
    + apply Z.compare_lt_iff. nia.
    + apply Z.compare_gt_iff. nia.
    + destruct (Z.compare_spec e1 e2) as [Heq | Hlt | Hgt].
      * subst e2. rewrite same_exponent by lia.
        rewrite Pos.compare_cont_spec.
        destruct (m1 ?= m2)%positive; reflexivity.
      * apply Z.compare_lt_iff. apply (smaller_exponent _ _ _ _ _ _ V1 V2 Hlt).
      * apply Z.compare_gt_iff. apply (smaller_exponent _ _ _ _ _ _ V2 V1 Hgt).
Qed.

(** The exact value of a finite number, over the common denominator. *)
Lemma real_scaled (x : float) :
  finite x = true ->
  (real x == scaled (Prim2SF x) # (2 ^ 1074)%positive)%Q.
Proof.
  unfold finite, real. pose proof (Prim2SF_valid x) as V.
  destruct (Prim2SF x) as [s | s | | s m e]; try discriminate; intros _.
  - reflexivity.
  - destruct (valid_finite_bounds _ _ _ V) as [He _].
    assert (Hden : Zpos (2 ^ 1074)%positive = 2 ^ 1074) by apply Pos2Z.inj_pow.
    assert (Hmag : (magnitude m e == Zpos m * 2 ^ (e + 1074) # (2 ^ 1074)%positive)%Q).
    { unfold magnitude, Qeq. destruct e as [| p | p]; cbn [Qnum Qden inject_Z].
      - rewrite Hden. change (0 + 1074) with 1074. rewrite Z.pow_0_r. lia.
      - rewrite Hden, Z.pow_add_r by lia. lia.
      - rewrite Hden, Pos2Z.inj_pow.
        replace (2 ^ 1074) with (2 ^ (Zneg p + 1074) * 2 ^ Zpos p).
        + lia.
        + rewrite <- Z.pow_add_r by lia. f_equal. lia. }
    cbn [scaled]. destruct s.
    + rewrite Hmag. unfold Qeq, Qopp; cbn [Qnum Qden]. reflexivity.
    + exact Hmag.
Qed.

Lemma scaled_order (a b : Z) (d : positive) :
  (a # d < b # d)%Q <-> a < b.
Proof. unfold Qlt; cbn [Qnum Qden]. nia. Qed.

(** [x < y] on finite numbers is the order of their exact values. *)
Lemma ltb_real (x y : float) :
  finite x = true -> finite y = true ->
  (PrimFloat.ltb x y = true <-> (real x < real y)%Q).
Proof.
  intros Fx Fy.
  rewrite (real_scaled x Fx), (real_scaled y Fy), scaled_order.
  rewrite ltb_spec. unfold SFltb.
  rewrite (SFcompare_scaled _ _ (Prim2SF_valid x) (Prim2SF_valid y)).
  - destruct (Z.compare_spec (scaled (Prim2SF x)) (scaled (Prim2SF y)));
      split; intros; try discriminate; try lia; reflexivity.
  - unfold finite in Fx. destruct (Prim2SF x); try discriminate; exact I.
  - unfold finite in Fy. destruct (Prim2SF y); try discriminate; exact I.
Qed.

(** [x <= y] on finite numbers is the order of their exact values. *)
Lemma leb_real (x y : float) :
  finite x = true -> finite y = true ->
  (PrimFloat.leb x y = true <-> (real x <= real y)%Q).
Proof.
  intros Fx Fy.
  rewrite (real_scaled x Fx), (real_scaled y Fy).
  assert (Hle : forall a b d, (a # d <= b # d)%Q <-> a <= b)
    by (intros a b d; unfold Qle; cbn [Qnum Qden]; nia).
  rewrite Hle.
  rewrite leb_spec. unfold SFleb.
  rewrite (SFcompare_scaled _ _ (Prim2SF_valid x) (Prim2SF_valid y)).
  - destruct (Z.compare_spec (scaled (Prim2SF x)) (scaled (Prim2SF y)));
      split; intros; try discriminate; try lia; reflexivity.
  - unfold finite in Fx. destruct (Prim2SF x); try discriminate; exact I.
  - unfold finite in Fy. destruct (Prim2SF y); try discriminate; exact I.
Qed.

Lemma fixed_range_finite (x : float) : fixed_range x = true -> finite x = true.
Proof.
  unfold fixed_range, finite. destruct (Prim2SF x); trivial.
Qed.

(** The integer [toFixed(1)] picks is below [k] exactly when the magnitude is
    below [k - 1/2] tenths: halves round up. *)
Lemma nearest_scaled_below (m : positive) (e k : Z) :
  nearest_scaled 1 m e < k <-> (magnitude m e < (2 * k - 1) # 20)%Q.
Proof.
  unfold nearest_scaled, magnitude. change (10 ^ Z.of_nat 1) with 10.
  destruct e as [| p | p].
  - unfold Qlt, inject_Z; cbn [Qnum Qden]. rewrite Z.pow_0_r. lia.
  - assert (0 < 2 ^ Z.pos p) by (apply Z.pow_pos_nonneg; lia).
    unfold Qlt, inject_Z; cbn [Qnum Qden].
    set (M := Z.pos m * 2 ^ Z.pos p). lia.
  - set (D := (2 ^ p)%positive).
    unfold Qlt; cbn [Qnum Qden].
    pose proof (Z.div_mod (2 * (Z.pos m * 10) + Z.pos D) (2 * Z.pos D) ltac:(lia)) as Hdm.
    pose proof (Z.mod_pos_bound (2 * (Z.pos m * 10) + Z.pos D) (2 * Z.pos D) ltac:(lia)) as Hb.
    set (n := (2 * (Z.pos m * 10) + Z.pos D) / (2 * Z.pos D)) in *.
    split; intros; nia.
Qed.

Lemma ge_1e21_magnitude (m : positive) (e : Z) :
  ge_1e21 m e = true -> (inject_Z (10 ^ 21) <= magnitude m e)%Q.
Proof.
  unfold ge_1e21, magnitude.
  destruct e as [| p | p]; intros H; apply Z.leb_le in H;
    unfold Qle, inject_Z; cbn [Qnum Qden]; lia.
Qed.

(** A finite number outside the range of fixed notation is at least [10^21]
    in magnitude. *)
Lemma beyond_fixed_range (x : float) :
  finite x = true -> fixed_range x = false ->
  (real x <= - inject_Z (10 ^ 21))%Q \/ (inject_Z (10 ^ 21) <= real x)%Q.
Proof.
  unfold finite, fixed_range, real.
  destruct (Prim2SF x) as [s | s | | s m e]; try discriminate.
  intros _ H. apply negb_false_iff in H. apply ge_1e21_magnitude in H.
  destruct s; [left | right; exact H].
  apply Qopp_le_compat. exact H.
Qed.

Lemma real_28 : (real 28%float == inject_Z 28)%Q.
Proof. vm_compute. reflexivity. Qed.

Lemma real_40 : (real 40%float == inject_Z 40)%Q.
Proof. vm_compute. reflexivity. Qed.

(** The comparison of the rear tire line, [s < 28 || s > 40] on the string
    [s] of [toFixed(1)], in terms of the number printed: it holds exactly
    when the number is below 27.95 or at least 40.05. *)
Lemma warns_by_real (x : float) :
  finite x = true ->
  (lt_number (toFixed 1 x) 28 || gt_number (toFixed 1 x) 40 = true
   <-> (real x < 559 # 20)%Q \/ (801 # 20 <= real x)%Q).
Proof.
  intros Hfin. destruct (fixed_range x) eqn:Hrange.
  - unfold fixed_range in Hrange. unfold toFixed, real.
    destruct (Prim2SF x) as [s | s | | s m e]; try discriminate.
    + cbn. split; [intros _; left; reflexivity | reflexivity].
    + apply negb_true_iff in Hrange. rewrite Hrange.
      pose proof (nearest_scaled_nonneg 1 m e) as Hn.
      pose proof (nearest_scaled_below m e 280) as H280.
      pose proof (nearest_scaled_below m e 401) as H401.
      change (2 * 280 - 1) with 559 in H280. change (2 * 401 - 1) with 801 in H401.
      assert (Hmag : (0 < magnitude m e)%Q).
      { unfold magnitude. destruct e as [| p | p]; unfold Qlt, inject_Z; cbn [Qnum Qden].
        - rewrite Z.pow_0_r. lia.
        - assert (0 < 2 ^ Z.pos p) by (apply Z.pow_pos_nonneg; lia). nia.
        - lia. }
      unfold lt_number, gt_number. change (10 ^ Z.of_nat 1) with 10.
      destruct s.
      * assert (Hlt : (- nearest_scaled 1 m e <? 28 * 10) = true)
          by (apply Z.ltb_lt; lia).
        rewrite Hlt; cbn [orb].
        split; [intros _; left | reflexivity].
        apply Qlt_trans with 0%Q; [| reflexivity].
        apply Qopp_lt_compat in Hmag. exact Hmag.
      * destruct (nearest_scaled 1 m e <? 28 * 10) eqn:Hlt; cbn [orb].
        -- apply Z.ltb_lt in Hlt. split; [intros _; left; apply H280; lia | reflexivity].
        -- apply Z.ltb_ge in Hlt.
           destruct (40 * 10 <? nearest_scaled 1 m e) eqn:Hgt.
           ++ apply Z.ltb_lt in Hgt.
              split; [intros _; right | reflexivity].
              apply Qnot_lt_le. intros Hc. apply H401 in Hc. lia.
           ++ apply Z.ltb_ge in Hgt.
              split; [discriminate |].
              intros [Hc | Hc].
              ** apply H280 in Hc. lia.
              ** exfalso. apply (Qle_not_lt _ _ Hc). apply H401. lia.
  - rewrite (toFixed_shortest 1 x Hrange).
    change (lt_number (Shortest x) 28) with (PrimFloat.ltb x 28%float).
    change (gt_number (Shortest x) 40) with (PrimFloat.ltb 40%float x).
    pose proof (ltb_real x 28%float Hfin eq_refl) as H28.
    pose proof (ltb_real 40%float x eq_refl Hfin) as H40.
    rewrite real_28 in H28. rewrite real_40 in H40.
    destruct (beyond_fixed_range x Hfin Hrange) as [Hlow | Hhigh].
    + assert (Hlt : (real x < inject_Z 28)%Q)
        by (apply Qle_lt_trans with (- inject_Z (10 ^ 21))%Q; [exact Hlow | reflexivity]).
      rewrite (proj2 H28 Hlt). cbn [orb].
      split; [intros _; left | reflexivity].
      apply Qle_lt_trans with (- inject_Z (10 ^ 21))%Q; [exact Hlow | reflexivity].
    + assert (Hgt : (inject_Z 40 < real x)%Q)
        by (apply Qlt_le_trans with (inject_Z (10 ^ 21)); [reflexivity | exact Hhigh]).
      rewrite (proj2 H40 Hgt). rewrite orb_true_r.
      split; [intros _; right | reflexivity].
      apply Qle_trans with (inject_Z (10 ^ 21)); [| exact Hhigh].
      unfold Qle, inject_Z; cbn [Qnum Qden]. lia.
Qed.

End FloatOrderFacts.

(* ===================================================================== *)
(** * Further statements: BikeStatusDisplay and BikeMap                  *)
(* ===================================================================== *)

Section StatusLineFacts.
Import Js JsOrder JsRead Telemetry BikeStatusDisplay.
Variable numberToString : float -> string.

Lemma real_100 : (real 100%float == inject_Z 100)%Q.
Proof. vm_compute. reflexivity. Qed.

Lemma real_11_5 : (real 11.5%float == 23 # 2)%Q.
Proof. vm_compute. reflexivity. Qed.

(** X1: for an engine temperature reading of magnitude below [10^21], the
    first line of [BikeStatusDisplay] reads "Engine Temp: ", the numeral with
    one fraction digit nearest to the reading, "°C", and it has the warning
    class exactly when the reading itself, not the numeral shown, is above
    100. *)
Theorem engine_temp_line (bd : bikeData) (t : float) :
  engine_temp_c bd = Some t ->
  fixed_range t = true ->
  exists items line txt v,
    BikeStatusDisplay numberToString (Some bd) = Some items
    /\ nth_error items 0 = Some line
    /\ content line = "Engine Temp: " ++ txt ++ "°C"
    /\ read_fixed 1 txt = Some v
    /\ (Qabs (v - real t) <= 1 # 20)%Q
    /\ (className line = "warn" <-> (inject_Z 100 < real t)%Q)
    /\ (className line = "warn" \/ className line = "ok").
Proof.
  intros Ht Hrange.
  destruct (toFixed_nearest 1 t Hrange) as [neg [n [Hfix [Hn Hclose]]]].
  exists [engine_item numberToString bd; battery_item numberToString bd;
          tire_item numberToString bd; moving_item bd], (engine_item numberToString bd),
         (text numberToString (Fixed neg n 1)), (fixed_value neg n 1).
  split; [reflexivity |]. split; [reflexivity |].
  unfold engine_item, tempClass; cbn [content className]. rewrite Ht, Hfix.
  split; [reflexivity |].
  split; [apply read_fixed_text; exact Hn |].
  split; [exact Hclose |].
  rewrite <- real_100.
  rewrite <- (ltb_real 100%float t eq_refl (fixed_range_finite t Hrange)).
  destruct (PrimFloat.ltb 100 t); split; auto; split; auto; discriminate.
Qed.

(** The warning of the engine line looks at the reading before it is
    rounded: 100.04 is shown as 100.0 and warns. *)
Example engine_temp_warns_at_100_04 :
  engine_item numberToString
    {| engine_temp_c := Some 100.04%float; battery_voltage := None;
       tire_pressure_kpa := None; moving := false; gps_lat := None; gps_lon := None;
       immobilization_status := false; timestamp := 0 |}
  = {| className := "warn"; content := "Engine Temp: 100.0°C" |}.
Proof. reflexivity. Qed.

(** X2: for a battery voltage reading of magnitude below [10^21], the second
    line of [BikeStatusDisplay] reads "Battery: ", the numeral with two
    fraction digits nearest to the reading, "V", and it has the warning class
    exactly when the reading itself is below 11.5. *)
Theorem battery_line (bd : bikeData) (v : float) :
  battery_voltage bd = Some v ->
  fixed_range v = true ->
  exists items line txt shown,
    BikeStatusDisplay numberToString (Some bd) = Some items
    /\ nth_error items 1 = Some line
    /\ content line = "Battery: " ++ txt ++ "V"
    /\ read_fixed 2 txt = Some shown
    /\ (Qabs (shown - real v) <= 1 # 200)%Q
    /\ (className line = "warn" <-> (real v < 23 # 2)%Q)
    /\ (className line = "warn" \/ className line = "ok").
Proof.
  intros Hv Hrange.
  destruct (toFixed_nearest 2 v Hrange) as [neg [n [Hfix [Hn Hclose]]]].
  exists [engine_item numberToString bd; battery_item numberToString bd;
          tire_item numberToString bd; moving_item bd], (battery_item numberToString bd),
         (text numberToString (Fixed neg n 2)), (fixed_value neg n 2).
  split; [reflexivity |]. split; [reflexivity |].
  unfold battery_item, battClass; cbn [content className]. rewrite Hv, Hfix.
  split; [reflexivity |].
  split; [apply read_fixed_text; exact Hn |].
  split; [exact Hclose |].
  rewrite <- real_11_5.
  rewrite <- (ltb_real v 11.5%float (fixed_range_finite v Hrange) eq_refl).
  destruct (PrimFloat.ltb v 11.5); split; auto; split; auto; discriminate.
Qed.

(** X3: for a non-zero tire pressure reading whose product with 0.1450377 is
    finite, the third line of [BikeStatusDisplay] has the warning class
    exactly when that product is below 27.95 or at least 40.05: the
    thresholds 28 and 40 are applied to the printed, rounded value. *)
Theorem tire_warning_thresholds (bd : bikeData) (kpa : float) :
  tire_pressure_kpa bd = Some kpa ->
  truthy_number kpa = true ->
  finite (kpa * 0.1450377)%float = true ->
  exists items line,
    BikeStatusDisplay numberToString (Some bd) = Some items
    /\ nth_error items 2 = Some line
    /\ (className line = "warn"
        <-> (real (kpa * 0.1450377)%float < 559 # 20)%Q
            \/ (801 # 20 <= real (kpa * 0.1450377)%float)%Q)
    /\ (className line = "warn" \/ className line = "ok").
Proof.
  intros Hkpa Htruthy Hfin.
  exists [engine_item numberToString bd; battery_item numberToString bd;
          tire_item numberToString bd; moving_item bd], (tire_item numberToString bd).
  split; [reflexivity |]. split; [reflexivity |].
  rewrite <- (warns_by_real _ Hfin).
  unfold tire_item, tireClass, tirePressurePsi; cbn [className].
  rewrite Hkpa, Htruthy.
  change psi_per_kpa with 0.1450377%float.
  destruct (lt_number (toFixed 1 (kpa * 0.1450377)%float) 28
            || gt_number (toFixed 1 (kpa * 0.1450377)%float) 40);
    split; auto; split; auto; discriminate.
Qed.

End StatusLineFacts.

Section StatusLineWitnesses.
Import Js JsOrder JsRead Telemetry BikeStatusDisplay.

Lemma engine_temp_line_witness :
  exists items line txt v,
    BikeStatusDisplay (fun _ => "") (Some (mockBikeData 0)) = Some items
    /\ nth_error items 0 = Some line
    /\ BikeStatusDisplay.content line = "Engine Temp: " ++ txt ++ "°C"
    /\ read_fixed 1 txt = Some v
    /\ (Qabs (v - real 82.7%float) <= 1 # 20)%Q
    /\ (className line = "warn" <-> (inject_Z 100 < real 82.7%float)%Q)
    /\ (className line = "warn" \/ className line = "ok").
Proof.
  apply (engine_temp_line (fun _ => "") (mockBikeData 0) 82.7%float); reflexivity.
Defined.

Lemma battery_line_witness :
  exists items line txt shown,
    BikeStatusDisplay (fun _ => "") (Some (mockBikeData 0)) = Some items
    /\ nth_error items 1 = Some line
    /\ BikeStatusDisplay.content line = "Battery: " ++ txt ++ "V"
    /\ read_fixed 2 txt = Some shown
    /\ (Qabs (shown - real 12.46%float) <= 1 # 200)%Q
    /\ (className line = "warn" <-> (real 12.46%float < 23 # 2)%Q)
    /\ (className line = "warn" \/ className line = "ok").
Proof.
  apply (battery_line (fun _ => "") (mockBikeData 0) 12.46%float); reflexivity.
Defined.

Lemma tire_warning_thresholds_witness :
  exists items line,
    BikeStatusDisplay (fun _ => "")
      (Some (with_tire_pressure (Some 193%float) (mockBikeData 0))) = Some items
    /\ nth_error items 2 = Some line
    /\ (className line = "warn"
        <-> (real (193 * 0.1450377)%float < 559 # 20)%Q
            \/ (801 # 20 <= real (193 * 0.1450377)%float)%Q)
    /\ (className line = "warn" \/ className line = "ok").
Proof.
  apply (tire_warning_thresholds (fun _ => "")
           (with_tire_pressure (Some 193%float) (mockBikeData 0)) 193%float);
    reflexivity.
Defined.

End StatusLineWitnesses.

Section PopupFacts.
Import Js JsOrder JsRead Telemetry BikeMap.
Variable numberToString : float -> string.

(** X4: with both coordinates present and of magnitude below [10^21], the
    map is centred on the marker, and the second line of the popup reads
    "Lat: ", a numeral, ", Lon: ", a numeral, each numeral being the one with
    five fraction digits nearest to its coordinate. *)
Theorem BikeMap_popup (bd : bikeData) (la lo : float) :
  gps_lat bd = Some la ->
  gps_lon bd = Some lo ->
  fixed_range la = true ->
  fixed_range lo = true ->
  exists p m t1 v1 t2 v2,
    BikeMap numberToString (Some bd) = Normal (Some p)
    /\ body p = MapContainer (position m) 15 m
    /\ position m = (Some la, Some lo)
    /\ popup m = ["Bike Location"; "Lat: " ++ t1 ++ ", Lon: " ++ t2]
    /\ read_fixed 5 t1 = Some v1
    /\ read_fixed 5 t2 = Some v2
    /\ (Qabs (v1 - real la) <= 1 # 200000)%Q
    /\ (Qabs (v2 - real lo) <= 1 # 200000)%Q.
Proof.
  intros Hla Hlo Rla Rlo.
  destruct (toFixed_nearest 5 la Rla) as [s1 [n1 [F1 [N1 C1]]]].
  destruct (toFixed_nearest 5 lo Rlo) as [s2 [n2 [F2 [N2 C2]]]].
  unfold BikeMap. rewrite Hla, Hlo.
  cbv beta iota zeta delta [not_nullish andb call_toFixed bind ret].
  rewrite F1, F2.
  exists {| heading := "Location";
            body := MapContainer (Some la, Some lo) 15
                      {| position := (Some la, Some lo);
                         popup := ["Bike Location";
                                   "Lat: " ++ text numberToString (Fixed s1 n1 5)
                                   ++ ", Lon: " ++ text numberToString (Fixed s2 n2 5)] |} |}.
  exists {| position := (Some la, Some lo);
            popup := ["Bike Location";
                      "Lat: " ++ text numberToString (Fixed s1 n1 5)
                      ++ ", Lon: " ++ text numberToString (Fixed s2 n2 5)] |}.
  exists (text numberToString (Fixed s1 n1 5)), (fixed_value s1 n1 5),
         (text numberToString (Fixed s2 n2 5)), (fixed_value s2 n2 5).
  split; [reflexivity |]. split; [reflexivity |]. split; [reflexivity |].
  split; [reflexivity |].
  split; [apply read_fixed_text; exact N1 |].
  split; [apply read_fixed_text; exact N2 |].
  split; assumption.
Qed.

End PopupFacts.

Section PopupWitnesses.
Import Js JsOrder JsRead Telemetry BikeMap.

Lemma BikeMap_popup_witness :
  exists p m t1 v1 t2 v2,
    BikeMap (fun _ => "") (Some (mockBikeData 0)) = Normal (Some p)
    /\ body p = MapContainer (position m) 15 m
    /\ position m = (Some 37.4219999%float, Some (-122.0840575)%float)
    /\ popup m = ["Bike Location"; "Lat: " ++ t1 ++ ", Lon: " ++ t2]
    /\ read_fixed 5 t1 = Some v1
    /\ read_fixed 5 t2 = Some v2
    /\ (Qabs (v1 - real 37.4219999%float) <= 1 # 200000)%Q
    /\ (Qabs (v2 - real (-122.0840575)%float) <= 1 # 200000)%Q.
Proof.
  apply (BikeMap_popup (fun _ => "") (mockBikeData 0)
           37.4219999%float (-122.0840575)%float); reflexivity.
Defined.

End PopupWitnesses.

(* ===================================================================== *)
(** * Further statements: SecurityControls and api.js                    *)
(* ===================================================================== *)

Section CommandFacts.
Import Js Telemetry SecurityControls Wiring Mounted.

Lemma commit_enabled_means_idle (m : mounted) (bd : option bikeData) :
  enabled_means_idle (fst (happen m (Commit bd))).
Proof.
  intros v a. cbn [happen fst shown current].
  destruct bd as [bd |]; cbn [render]; [| discriminate].
  intros Hv. injection Hv as <-.
  destruct a; cbn [button_for immobilize_button resume_button disabled];
    destruct (busy (current m)); cbn [orb]; trivial; discriminate.
Qed.

Lemma happenings_cons (m : mounted) (h : happening) (rest : list happening) :
  happenings m (h :: rest)
  = (fst (happenings (fst (happen m h)) rest),
     (snd (happen m h) ++ snd (happenings (fst (happen m h)) rest))%list).
Proof.
  cbn [happenings]. destruct (happen m h) as [m1 out1].
  cbn [fst snd]. destruct (happenings m1 rest) as [m2 out2]. reflexivity.
Qed.

Lemma press_enabled (m : mounted) (a : action) (v : panel) :
  shown m = Some v -> disabled (button_for a v) = false ->
  happen m (Press a)
  = ({| current := {| busy := true |}; shown := shown m |},
     [SendCommand (onClick (button_for a v))]).
Proof.
  intros Hv Hdis. cbn [happen]. rewrite Hv. unfold click. rewrite Hdis.
  reflexivity.
Qed.

Lemma press_idle (m : mounted) (a : action) :
  (shown m = None
   \/ exists v, shown m = Some v /\ disabled (button_for a v) = true) ->
  happen m (Press a) = ({| current := current m; shown := shown m |}, []).
Proof.
  intros [Hnone | [v [Hv Hdis]]]; cbn [happen].
  - rewrite Hnone. destruct m as [c sh]. cbn in Hnone. subst sh. reflexivity.
  - rewrite Hv. unfold click. rewrite Hdis. reflexivity.
Qed.

Lemma happenings_account (hs : list happening) :
  forall (m : mounted) (pressed : bool),
    commit_between_presses pressed hs = true ->
    (pressed = false -> enabled_means_idle m) ->
    (List.length (snd (happenings m hs)) + (if busy (current m) then 1 else 0)
     <= settlements hs + (if busy (current (fst (happenings m hs))) then 1 else 0))%nat.
Proof.
  induction hs as [| h rest IH]; intros m pressed Hok Hidle.
  - cbn. lia.
  - rewrite happenings_cons. cbn [fst snd]. rewrite List.length_app.
    destruct h as [bd | a | r];
      cbn [settlements commit_between_presses] in *.
    + specialize (IH (fst (happen m (Commit bd))) false Hok
                     (fun _ => commit_enabled_means_idle m bd)).
      cbn [happen fst snd current List.length] in *. lia.
    + apply andb_true_iff in Hok. destruct Hok as [Hfresh Hok].
      apply negb_true_iff in Hfresh. specialize (Hidle Hfresh).
      assert (Hstale : forall m', true = false -> enabled_means_idle m')
        by (intros m' H; discriminate H).
      destruct (shown m) as [v |] eqn:Hshown.
      * destruct (disabled (button_for a v)) eqn:Hdis.
        -- rewrite (press_idle m a) by (right; exists v; split; assumption).
           specialize (IH {| current := current m; shown := shown m |} true Hok
                         (Hstale _)).
           cbn [fst snd current List.length] in *. lia.
        -- pose proof (Hidle v a Hshown Hdis) as Hb.
           rewrite (press_enabled m a v Hshown Hdis).
           specialize (IH {| current := {| busy := true |}; shown := shown m |}
                         true Hok (Hstale _)).
           cbn [fst snd current busy List.length] in *. rewrite Hb. lia.
      * rewrite (press_idle m a) by (left; assumption).
        specialize (IH {| current := current m; shown := shown m |} true Hok
                      (Hstale _)).
        cbn [fst snd current List.length] in *. lia.
    + assert (Hnext : pressed = false ->
                      enabled_means_idle (fst (happen m (Settle r)))).
      { intros _ v a _ _. reflexivity. }
      specialize (IH _ pressed Hok Hnext).
      cbn [happen handleClick_settle fst snd current busy List.length] in *.
      destruct (busy (current m)); lia.
Qed.

(** X5: from the first render on, in every sequence of commits, clicks and
    settlements in which a commit lies between any two clicks, the commands
    sent exceed the settlements by at most one, and by none when the
    component is not busy at the end: no second command is sent while one is
    in flight. *)
Theorem commands_never_overlap (bd : option bikeData) (hs : list happening) :
  commit_between_presses false hs = true ->
  (List.length (snd (happenings (mount bd) hs))
   <= settlements hs
      + (if busy (current (fst (happenings (mount bd) hs))) then 1 else 0))%nat.
Proof.
  intros Hok.
  pose proof (happenings_account hs (mount bd) false Hok) as H.
  cbn [mount current busy initial] in H.
  assert (Hidle : enabled_means_idle (mount bd)) by (intros v a _ _; reflexivity).
  specialize (H (fun _ => Hidle)). lia.
Qed.

Lemma commands_never_overlap_witness :
  (List.length
     (snd (happenings (mount (Some (mockBikeData 0)))
             [Press immobilize; Commit (Some (mockBikeData 0)); Press immobilize;
              Settle (Normal Api.failure_outcome); Commit (Some (mockBikeData 0));
              Press immobilize]))
   <= 1 + (if busy (current
                      (fst (happenings (mount (Some (mockBikeData 0)))
                              [Press immobilize; Commit (Some (mockBikeData 0));
                               Press immobilize;
                               Settle (Normal Api.failure_outcome);
                               Commit (Some (mockBikeData 0));
                               Press immobilize])))
           then 1 else 0))%nat.
Proof.
  apply (commands_never_overlap (Some (mockBikeData 0))
           [Press immobilize; Commit (Some (mockBikeData 0)); Press immobilize;
            Settle (Normal Api.failure_outcome); Commit (Some (mockBikeData 0));
            Press immobilize]).
  reflexivity.
Defined.

(** Without a commit between them, two clicks on the enabled button both
    send: [handleClick] has no guard of its own. *)
Example two_clicks_before_a_commit :
  snd (happenings (mount (Some (mockBikeData 0))) [Press immobilize; Press immobilize])
  = [SendCommand immobilize; SendCommand immobilize].
Proof. reflexivity. Qed.

(** X6: the two buttons are never enabled together. While busy both are
    disabled and "Processing..." is shown; otherwise the enabled button is
    the one whose action changes the displayed state, and nothing is shown
    below the buttons. *)
Theorem one_button_at_most (st : state) (bd : bikeData) :
  exists p,
    render st (Some bd) = Some p
    /\ disabled (immobilize_button p) || disabled (resume_button p) = true
    /\ (forall a, disabled (button_for a p) = busy st || Bool.eqb (immobilized bd) (target a))
    /\ working p = (if busy st then Some "Processing..." else None).
Proof.
  eexists; split; [reflexivity |]. cbn.
  split; [| split; [| reflexivity]].
  - destruct (busy st), (immobilized bd); reflexivity.
  - intros a; destruct a, (busy st), (immobilized bd); reflexivity.
Qed.


(** X8: with [sendCommand] of [utils/api.js] behind the prop, [handleClick]
    never ends in a rejection: however the request settles, with a response
    of any status or with none, it completes normally with [busy] cleared. *)
Theorem handleClick_never_rejects
    (net : Api.network) (baseUrl : string) (a : action) (st : state) :
  handleClick_settle (bound_sendCommand net baseUrl a) st
  = ({| busy := false |}, Normal tt).
Proof.
  unfold bound_sendCommand, handleClick_settle.
  rewrite sendCommand_eq. reflexivity.
Qed.

(** X9: when the controller's replies with a success code are outcomes of the
    documented shape, every result of [sendCommand] is one, the result for a
    failed request included. *)
Theorem sendCommand_well_formed (net : Api.network) (action baseUrl : string) :
  (forall code body,
      Api.outcome_of net action baseUrl = Api.Responded code body ->
      Api.validateStatus code = true ->
      Api.well_formed_outcome body = true) ->
  exists v, Api.sendCommand net action baseUrl = Normal v
            /\ Api.well_formed_outcome v = true.
Proof.
  intros Hshape. rewrite sendCommand_eq.
  eexists; split; [reflexivity |].
  destruct (Api.outcome_of net action baseUrl) as [cause | code body] eqn:Hout.
  - reflexivity.
  - destruct (Api.validateStatus code) eqn:Hcode.
    + apply (Hshape code body eq_refl Hcode).
    + reflexivity.
Qed.

Lemma sendCommand_well_formed_witness :
  exists v,
    Api.sendCommand
      (fun _ _ => Api.Responded 200
                    (VObj [("status", VStr "error"); ("message", VStr "Engine is running")]))
      "immobilize" "http://raspberrypi:5000/api"
    = Normal v
    /\ Api.well_formed_outcome v = true.
Proof.
  apply (sendCommand_well_formed
           (fun _ _ => Api.Responded 200
                         (VObj [("status", VStr "error");
                                ("message", VStr "Engine is running")]))
           "immobilize" "http://raspberrypi:5000/api").
  intros code body Hout Hcode.
  injection Hout as <- <-. reflexivity.
Defined.

(** X10: [sendCommand] reports success only on the controller's word: a
    result with status ["ok"] is the body of a response with a success
    code. *)
Theorem sendCommand_ok_is_controllers
    (net : Api.network) (action baseUrl : string) (v : value) :
  Api.sendCommand net action baseUrl = Normal v ->
  field "status" v = Some (VStr "ok") ->
  exists code,
    Api.outcome_of net action baseUrl = Api.Responded code v
    /\ Api.validateStatus code = true.
Proof.
  rewrite sendCommand_eq. intros Hv Hok. injection Hv as Hv.
  destruct (Api.outcome_of net action baseUrl) as [cause | code body].
  - subst v. discriminate Hok.
  - destruct (Api.validateStatus code) eqn:Hcode.
    + subst v. exists code. split; [reflexivity | exact Hcode].
    + subst v. discriminate Hok.
Qed.

Lemma sendCommand_ok_is_controllers_witness :
  exists code,
    Api.outcome_of (fun _ _ => Api.Responded 200 (VObj [("status", VStr "ok")]))
      "resume" "http://raspberrypi:5000/api"
    = Api.Responded code (VObj [("status", VStr "ok")])
    /\ Api.validateStatus code = true.
Proof.
  apply (sendCommand_ok_is_controllers
           (fun _ _ => Api.Responded 200 (VObj [("status", VStr "ok")]))
           "resume" "http://raspberrypi:5000/api"); reflexivity.
Defined.

End CommandFacts.

(* ===================================================================== *)
(** * Further statements: App.js                                         *)
(* ===================================================================== *)

Section WidgetFacts.
Import Js JsOrder App Widgets.

(** The mock with its lock and its engine in a given state. *)
Definition dashboard_with (locked on : bool) : data :=
  with_security (if locked then "Locked" else "Unlocked")
                (if on then "On" else "Off") mockBikeDataObject.

Lemma on_press_dashboard_with (locked on : bool) (b : press) :
  on_press (dashboard_with locked on) b
  = match b with
    | LockButton => dashboard_with (negb locked) on
    | EngineButton => dashboard_with locked (negb on)
    end.
Proof. destruct b, locked, on; reflexivity. Qed.

Lemma presses_dashboard_with (bs : list press) :
  forall locked on,
    presses (dashboard_with locked on) bs
    = dashboard_with (xorb locked (Nat.odd (count_lock bs)))
                     (xorb on (Nat.odd (count_engine bs))).
Proof.
  unfold presses.
  induction bs as [| b rest IH]; intros locked on; cbn [fold_left count_lock count_engine].
  - cbn. rewrite !xorb_false_r. reflexivity.
  - rewrite on_press_dashboard_with.
    destruct b; rewrite IH; rewrite Nat.odd_succ, <- Nat.negb_odd;
      [destruct locked | destruct on];
      destruct (Nat.odd (count_lock rest)), (Nat.odd (count_engine rest)); reflexivity.
Qed.

(** X11: after any sequence of presses of the two buttons, the dashboard is
    the mock with the lock flipped exactly when the lock button was pressed
    an odd number of times, and the engine flipped exactly when the engine
    button was; the order of the presses does not matter. *)
Theorem presses_by_parity (bs : list press) :
  presses mockBikeDataObject bs
  = with_security
      (if Nat.even (count_lock bs) then "Locked" else "Unlocked")
      (if Nat.even (count_engine bs) then "Off" else "On")
      mockBikeDataObject.
Proof.
  change mockBikeDataObject with (dashboard_with true false) at 1.
  rewrite presses_dashboard_with.
  rewrite <- !Nat.negb_odd.
  destruct (Nat.odd (count_lock bs)), (Nat.odd (count_engine bs)); reflexivity.
Qed.

(** X12: the dashboard has exactly four states: the mock with its lock
    'Locked' or 'Unlocked' and its engine 'On' or 'Off'. *)
Theorem dashboard_states_are_four (p : data) :
  dashboard_state p <-> exists locked on, p = dashboard_with locked on.
Proof.
  split.
  - induction 1 as [| p Hp [locked [on ->]] | p Hp [locked [on ->]]].
    + exists true, false; reflexivity.
    + exists (negb locked), on. apply (on_press_dashboard_with locked on LockButton).
    + exists locked, (negb on). apply (on_press_dashboard_with locked on EngineButton).
  - intros [locked [on ->]].
    destruct locked, on.
    + change (dashboard_with true true) with (handleEngineToggle mockBikeDataObject).
      apply ds_engine, ds_initial.
    + apply ds_initial.
    + change (dashboard_with false true)
        with (handleLockToggle (handleEngineToggle mockBikeDataObject)).
      apply ds_lock, ds_engine, ds_initial.
    + change (dashboard_with false false) with (handleLockToggle mockBikeDataObject).
      apply ds_lock, ds_initial.
Qed.

(** X13: in every state, the label of each button of the security widget
    names what a press of it brings about: after "Unlock Bike" the status is
    'Unlocked' and the button reads "Lock Bike", and the other way round; the
    header shows the icon of the new status; the engine line and button stay.
    The engine button does the same for the engine and leaves the lock. *)
Theorem buttons_announce_their_effect (p : data) :
  let w := SecurityWidget (security p) in
  let wl := SecurityWidget (security (handleLockToggle p)) in
  let we := SecurityWidget (security (handleEngineToggle p)) in
  ((lock_button w = "Unlock Bike"
    /\ Security.status (security (handleLockToggle p)) = "Unlocked"
    /\ lock_button wl = "Lock Bike"
    /\ header_icon (Header (Security.status (security (handleLockToggle p)))) = "Unlock")
   \/ (lock_button w = "Lock Bike"
       /\ Security.status (security (handleLockToggle p)) = "Locked"
       /\ lock_button wl = "Unlock Bike"
       /\ header_icon (Header (Security.status (security (handleLockToggle p)))) = "Lock"))
  /\ engine_state wl = engine_state w
  /\ engine_button wl = engine_button w
  /\ ((engine_button w = "Turn Engine OFF"
       /\ Security.engine (security (handleEngineToggle p)) = "Off"
       /\ engine_state we = "OFF"
       /\ engine_button we = "Turn Engine ON")
      \/ (engine_button w = "Turn Engine ON"
          /\ Security.engine (security (handleEngineToggle p)) = "On"
          /\ engine_state we = "ON"
          /\ engine_button we = "Turn Engine OFF"))
  /\ lock_state we = lock_state w
  /\ lock_button we = lock_button w.
Proof.
  unfold SecurityWidget, Header, handleLockToggle, handleEngineToggle.
  cbn [security Security.status Security.engine lock_button engine_button
       engine_state lock_state header_icon].
  destruct (String.eqb (Security.status (security p)) "Locked");
    destruct (String.eqb (Security.engine (security p)) "On"); cbn;
    repeat split; auto.
Qed.

Lemma real_75 : (real 75%float == inject_Z 75)%Q.
Proof. vm_compute. reflexivity. Qed.

Lemma real_50 : (real 50%float == inject_Z 50)%Q.
Proof. vm_compute. reflexivity. Qed.

(** X14: the four colours of a maintenance card (ring, bar, prediction text,
    trend line) always belong to one band: green for a health of at least 75,
    yellow from 50 to below 75, red below 50. *)
Theorem maintenance_card_band (item : Maintenance.t) :
  finite (Maintenance.health item) = true ->
  card_colours (maintenance_card_of item)
  = band_colours
      (if Qle_bool (inject_Z 75) (real (Maintenance.health item)) then Green
       else if Qle_bool (inject_Z 50) (real (Maintenance.health item)) then Yellow
       else Red).
Proof.
  intros Hfin.
  pose proof (leb_real 75%float (Maintenance.health item) eq_refl Hfin) as H75.
  pose proof (leb_real 50%float (Maintenance.health item) eq_refl Hfin) as H50.
  rewrite real_75 in H75. rewrite real_50 in H50.
  rewrite <- Qle_bool_iff in H75, H50.
  unfold card_colours, maintenance_card_of, ringColor, barColor;
    cbn [ring bar prediction_class stroke].
  destruct (PrimFloat.leb 75 (Maintenance.health item)).
  - rewrite (proj1 H75 eq_refl). reflexivity.
  - destruct (Qle_bool (inject_Z 75) (real (Maintenance.health item)));
      [discriminate (proj2 H75 eq_refl) |].
    destruct (PrimFloat.leb 50 (Maintenance.health item)).
    + rewrite (proj1 H50 eq_refl). reflexivity.
    + destruct (Qle_bool (inject_Z 50) (real (Maintenance.health item)));
        [discriminate (proj2 H50 eq_refl) | reflexivity].
Qed.

Lemma maintenance_card_band_witness :
  card_colours
    (maintenance_card_of
       {| Maintenance.part := "Chain"; Maintenance.icon := "Gauge";
          Maintenance.health := 74.5; Maintenance.prediction := "Lubricate soon";
          Maintenance.trendData := [] |})
  = band_colours
      (if Qle_bool (inject_Z 75) (real 74.5%float) then Green
       else if Qle_bool (inject_Z 50) (real 74.5%float) then Yellow
       else Red).
Proof.
  apply (maintenance_card_band
           {| Maintenance.part := "Chain"; Maintenance.icon := "Gauge";
              Maintenance.health := 74.5; Maintenance.prediction := "Lubricate soon";
              Maintenance.trendData := [] |}).
  reflexivity.
Defined.

Lemma own_statusColors_not_neutral (s c : string) :
  own s statusColors = Some c ->
  c <> "text-zinc-400"
  /\ existsb (String.eqb s) object_prototype_members = false.
Proof.
  unfold statusColors; cbn [own].
  repeat match goal with
         | |- context [String.eqb s ?k] =>
             destruct (String.eqb_spec s k) as [-> | _];
             [intros H; injection H as <-; split; [discriminate | reflexivity] |]
         end.
  discriminate.
Qed.

(** X15: [statusColor] gives the neutral class 'text-zinc-400' exactly for
    the strings that are neither one of its six statuses nor the name of a
    member inherited from [Object.prototype]; for such a name it gives no
    class at all, but the inherited member. *)
Theorem statusColor_neutral (s : string) :
  (statusColor s = Value "text-zinc-400"
   <-> own s statusColors = None
       /\ existsb (String.eqb s) object_prototype_members = false)
  /\ (statusColor s = Member s
      <-> existsb (String.eqb s) object_prototype_members = true).
Proof.
  unfold statusColor, get_or.
  destruct (own s statusColors) as [c |] eqn:Hown.
  - destruct (own_statusColors_not_neutral s c Hown) as [Hc Hm].
    rewrite Hm. split; split.
    + intros H; injection H as H; contradiction.
    + intros [H _]; discriminate H.
    + discriminate.
    + discriminate.
  - destruct (existsb (String.eqb s) object_prototype_members); split; split;
      try discriminate; auto.
    intros [_ H]; discriminate H.
Qed.

End WidgetFacts.
